(** * Filtering utilities and search facade of the Deep Lake vector store

    A shallow embedding of
    - [src/deeplake/core/vectorstore/vector_search/filter/filter.py]
    - [src/deeplake/core/vectorstore/deeplake_vectorstore.py] ([search],
      [delete], [__len__])

    Python values are modelled by a small inductive type; a Python dict
    is an association list in insertion order (the iteration order of a
    Python dict); raised exceptions are the [Raise] branch of a result
    type; warnings and log lines are returned next to the value. *)

From Stdlib Require Import ZArith List Bool String Ascii Lia.
From Stdlib Require Import Numbers.DecimalString Floats.
Import ListNotations.
Open Scope string_scope.

(** ** Python values *)

(** The scalar values that appear in metadata and filters. *)
Inductive PyValue : Type :=
| PNone
| PBool (b : bool)
| PInt (z : Z)
| PStr (s : string).

(** Python [==] on these values: [True == 1] and [False == 0] hold,
    values of unrelated types compare unequal. *)
Definition py_num (v : PyValue) : option Z :=
  match v with
  | PBool true => Some 1%Z
  | PBool false => Some 0%Z
  | PInt z => Some z
  | _ => None
  end.

Definition py_eq (a b : PyValue) : bool :=
  match a, b with
  | PNone, PNone => true
  | PStr s, PStr t => String.eqb s t
  | _, _ =>
      match py_num a, py_num b with
      | Some x, Some y => Z.eqb x y
      | _, _ => false
      end
  end.

(** Decimal rendering of an integer, as [str(int)]. *)
Definition z_to_string (z : Z) : string :=
  NilEmpty.string_of_int (Z.to_int z).

(** [str(value)] / [f"{value}"]. *)
Definition py_str (v : PyValue) : string :=
  match v with
  | PNone => "None"
  | PBool true => "True"
  | PBool false => "False"
  | PInt z => z_to_string z
  | PStr s => s
  end.

(** [repr] of a [str], for strings of code points below 256 (one
    [ascii] each): single quotes unless the string holds a single quote
    and no double quote; the quote in use and the backslash are escaped,
    tab, newline and carriage return as [\t], [\n], [\r], and the other
    non-printable code points (below 32, 127 to 160, and 173) as
    [\xhh]. *)
Definition hex_digit (n : nat) : ascii :=
  if Nat.ltb n 10 then ascii_of_nat (48 + n)%nat else ascii_of_nat (87 + n)%nat.

Definition backslash (t : string) : string := String "092"%char t.

Definition repr_char (quote c : ascii) : string :=
  let n := nat_of_ascii c in
  if Ascii.eqb c quote || Ascii.eqb c "092"%char then backslash (String c EmptyString)
  else if Nat.eqb n 9 then backslash "t"
  else if Nat.eqb n 10 then backslash "n"
  else if Nat.eqb n 13 then backslash "r"
  else if Nat.ltb n 32 || (Nat.leb 127 n && Nat.leb n 160) || Nat.eqb n 173
  then backslash (String "x"%char (String (hex_digit (n / 16)%nat)
                                      (String (hex_digit (n mod 16)%nat) EmptyString)))
  else String c EmptyString.

Fixpoint repr_body (quote : ascii) (s : string) : string :=
  match s with
  | EmptyString => EmptyString
  | String c t => repr_char quote c ++ repr_body quote t
  end.

Fixpoint str_has (c : ascii) (s : string) : bool :=
  match s with
  | EmptyString => false
  | String c' t => Ascii.eqb c c' || str_has c t
  end.

Definition str_repr (s : string) : string :=
  let quote := if str_has "039"%char s && negb (str_has "034"%char s)
               then "034"%char else "039"%char in
  String quote (repr_body quote s ++ String quote EmptyString).

(** [repr(value)]. *)
Definition py_repr (v : PyValue) : string :=
  match v with
  | PStr s => str_repr s
  | _ => py_str v
  end.

Definition is_str (v : PyValue) : bool :=
  match v with PStr _ => true | _ => false end.

(** Python string slicing [s[:-n]]: everything but the last [n]
    characters, the empty string when [s] is shorter. *)
Definition drop_last (n : nat) (s : string) : string :=
  substring 0 (String.length s - n) s.

(** [needle in hay] on strings. *)
Fixpoint str_contains (needle hay : string) : bool :=
  String.prefix needle hay ||
  match hay with
  | EmptyString => false
  | String _ t => str_contains needle t
  end.

(** ** Exceptions and results *)

Inductive PyExc : Type :=
| ValueError (msg : string)
| NotImplementedError (msg : string)
| KeyError (key : string)
| TypeError (msg : string)
| AttributeError (msg : string)
| UnboundLocalError (name : string)
| ModuleNotFoundError (msg : string).

Inductive Result (A : Type) : Type :=
| Ok (a : A)
| Raise (e : PyExc).
Arguments Ok {A} a.
Arguments Raise {A} e.

Definition bind {A B} (m : Result A) (k : A -> Result B) : Result B :=
  match m with
  | Ok a => k a
  | Raise e => Raise e
  end.

Notation "'let*' x := m 'in' k" := (bind m (fun x => k))
  (at level 200, x name, m at level 100, k at level 200).

(** ** Filters

    The [filter] argument is [Optional[Union[Dict, Callable]]]: absent,
    a dict [{tensor: {key: value}}], or a function.  A function is kept
    with the text [str(f)] gives, [<function name at 0x...>] with the
    function's address, and the predicate it computes on a row. *)

Definition FilterDict := list (string * list (string * PyValue)).

(** Column content of one row: [x[tensor].data()["value"]], a JSON dict
    for a json tensor or a string for a text tensor. *)
Inductive ColData : Type :=
| CDict (d : list (string * PyValue))
| CText (s : string).

(** A row as handed to a filter function: a one-row view of the dataset
    with its [len] and its columns. *)
Record RowView : Type := {
  rv_len : nat;
  rv_cols : list (string * ColData)
}.

(** What a Python predicate returns; [view.filter] keeps a row when the
    returned object is truthy. *)
Inductive PyObj : Type :=
| OVal (v : PyValue)
| OList (l : list PyValue).

Definition truthy (o : PyObj) : bool :=
  match o with
  | OVal PNone => false
  | OVal (PBool b) => b
  | OVal (PInt z) => negb (Z.eqb z 0)
  | OVal (PStr s) => negb (String.eqb s "")
  | OList l => negb (Nat.eqb (List.length l) 0)
  end.

Inductive FilterArg : Type :=
| FNone
| FDict (d : FilterDict)
| FCallable (text : string) (f : RowView -> Result PyObj).

(** [bool(filter)]: [None] and the empty dict are falsy, a function is
    truthy. *)
Definition filter_truthy (f : FilterArg) : bool :=
  match f with
  | FNone => false
  | FDict d => negb (Nat.eqb (List.length d) 0)
  | FCallable _ _ => true
  end.

(** [type(x)] for the filter argument, and the object [typing.Callable],
    which is not the type of any value. *)
Inductive PyType : Type :=
| TNoneType | TDict | TFunction | TTypingCallable.

Definition py_type_eqb (a b : PyType) : bool :=
  match a, b with
  | TNoneType, TNoneType | TDict, TDict | TFunction, TFunction
  | TTypingCallable, TTypingCallable => true
  | _, _ => false
  end.

Definition filter_type (f : FilterArg) : PyType :=
  match f with
  | FNone => TNoneType
  | FDict _ => TDict
  | FCallable _ _ => TFunction
  end.

(** ** Views

    A view is the list of its rows, each with its index in the dataset
    ([view.sample_indices] is the list of these indices). *)

Definition View := list (nat * RowView).

Definition sample_indices (v : View) : list nat := map fst v.

(** [view.filter(pred)]: rows in order, kept when [pred] returns a
    truthy object; an exception raised by [pred] propagates. *)
Fixpoint view_filter (pred : RowView -> Result PyObj) (v : View)
  : Result View :=
  match v with
  | [] => Ok []
  | (i, r) :: rest =>
      let* o := pred r in
      let* rest' := view_filter pred rest in
      Ok (if truthy o then (i, r) :: rest' else rest')
  end.

(** [x[tensor].data()["value"]]; a missing tensor raises. *)
Definition row_value (x : RowView) (tensor : string) : Result ColData :=
  match find (fun p => String.eqb (fst p) tensor) (rv_cols x) with
  | Some (_, c) => Ok c
  | None => Raise (KeyError tensor)
  end.

(** ** attribute_based_filtering_tql (filter.py, lines 40-53) *)

(** The logger parameter: the module's logger, or whatever object a
    caller passes in its position. *)
Inductive LoggerArg : Type :=
| ModuleLogger
| OtherObject (f : FilterArg).

Definition tql_val_str (value : PyValue) : string :=
  if is_str value then "'" ++ py_str value ++ "'" else py_str value.

(** The inner loop over [filter[tensor].items()]. *)
Fixpoint tql_items (tensor : string) (items : list (string * PyValue))
    (acc : string) : string :=
  match items with
  | [] => acc
  | (key, value) :: rest =>
      tql_items tensor rest
        (acc ++ tensor ++ "['" ++ key ++ "'] == " ++ tql_val_str value
             ++ " and ")
  end.

(** The outer loop over [filter.keys()]. *)
Fixpoint tql_tensors (d : FilterDict) (acc : string) : string :=
  match d with
  | [] => acc
  | (tensor, items) :: rest => tql_tensors rest (tql_items tensor items acc)
  end.

(** Returns [(view, tql_filter)] and the lines logged at warning level;
    [logger.warning] fails on an object that is not a logger. *)
Definition attribute_based_filtering_tql (view : View) (logger : LoggerArg)
    (filter : FilterArg) (debug_mode : bool)
  : Result ((View * string) * list string) :=
  let tql_filter :=
    match filter with
    | FDict d => drop_last 5 (tql_tensors d "")
    | _ => ""
    end in
  if debug_mode
  then
    match logger with
    | ModuleLogger =>
        Ok ((view, tql_filter),
            ["Converted tql string is: '" ++ tql_filter ++ "'"])
    | OtherObject _ =>
        Raise (AttributeError "object has no attribute 'warning'")
    end
  else Ok ((view, tql_filter), []).

(** ** dp_filter_python (filter.py, lines 13-23) *)

(** [all(k in metadata and v == metadata[k] for k, v in items)].
    On a text value [k in metadata] is a substring test and indexing it
    by a string raises. *)
Fixpoint all_match (metadata : ColData) (items : list (string * PyValue))
  : Result bool :=
  match items with
  | [] => Ok true
  | (k, v) :: rest =>
      match metadata with
      | CDict d =>
          match find (fun p => String.eqb (fst p) k) d with
          | Some (_, mv) => if py_eq v mv then all_match metadata rest
                            else Ok false
          | None => Ok false
          end
      | CText s =>
          if str_contains k s
          then Raise (TypeError "string indices must be integers")
          else Ok false
      end
  end.

(** The loop over the tensors of the filter; [result and all(...)]
    evaluates to [result] when [result] is falsy. *)
Fixpoint dp_filter_loop (x : RowView) (filter : FilterDict) (result : PyObj)
  : Result PyObj :=
  match filter with
  | [] => Ok result
  | (tensor, items) :: rest =>
      let* metadata := row_value x tensor in
      let* result' :=
        if truthy result
        then let* b := all_match metadata items in Ok (OVal (PBool b))
        else Ok result in
      dp_filter_loop x rest result'
  end.

Definition dp_filter_python (x : RowView) (filter : FilterDict)
  : Result PyObj :=
  dp_filter_loop x filter (OList (repeat (PInt 1) (rv_len x))).

(** ** attribute_based_filtering_python (filter.py, lines 26-37) *)

Definition attribute_based_filtering_python (view : View) (filter : FilterArg)
  : Result View :=
  match filter with
  | FNone => Ok view
  | FDict d => view_filter (fun x => dp_filter_python x d) view
  | FCallable _ f => view_filter f view
  end.

(** ** exact_text_search (filter.py, lines 70-81) *)

Definition no_text_match_warning : string :=
  "Exact text search wasn't able to find any files. Try other search options like embedding search.".

(** [lambda x: query in x["text"].data()["value"]]; [query] is the
    [prompt] of [search], so it may be [None]. *)
Definition text_pred (query : option string) (x : RowView) : Result PyObj :=
  let* c := row_value x "text" in
  match query, c with
  | Some q, CText s => Ok (OVal (PBool (str_contains q s)))
  | Some q, CDict d =>
      Ok (OVal (PBool (existsb (fun p => String.eqb (fst p) q) d)))
  | None, CText _ =>
      Raise (TypeError "'in <string>' requires string as left operand, not NoneType")
  | None, CDict _ => Ok (OVal (PBool false))
  end.

(** Returns [(view, scores, index)] and the warnings emitted. *)
Definition exact_text_search (view : View) (query : option string)
  : Result ((View * list float * option (list nat)) * list string) :=
  let* v := view_filter (text_pred query) view in
  let scores := repeat 1.0%float (List.length v) in
  if Nat.eqb (List.length v) 0
  then Ok ((v, scores, None), [no_text_match_warning])
  else Ok ((v, scores, Some (sample_indices v)), []).

(** ** get_id_indices / get_ids_that_does_not_exist (filter.py, 84-102) *)

(** [for id in ids: if id not in filtered_ids: ...], then [[:-2]]. *)
Definition get_ids_that_does_not_exist (ids filtered_ids : list PyValue)
  : string :=
  drop_last 2
    (fold_left
       (fun acc id =>
          if existsb (py_eq id) filtered_ids then acc
          else acc ++ "`" ++ py_str id ++ "`, ")
       ids "").

(** [lambda x: x["ids"].data()["value"] in ids]. *)
Definition id_pred (ids : list string) (x : RowView) : Result PyObj :=
  let* c := row_value x "ids" in
  match c with
  | CText s => Ok (OVal (PBool (existsb (String.eqb s) ids)))
  | CDict _ => Ok (OVal (PBool false))
  end.

(** [filtered_ids] are row indices (ints) of the dataset. *)
Definition get_id_indices (dataset : View) (ids : list string)
  : Result (list nat) :=
  let* view := view_filter (id_pred ids) dataset in
  let filtered_ids := sample_indices view in
  if negb (Nat.eqb (List.length filtered_ids) (List.length ids))
  then
    let ids_that_doesnt_exist :=
      get_ids_that_does_not_exist (map PStr ids)
        (map (fun n => PInt (Z.of_nat n)) filtered_ids) in
    Raise (ValueError ("The following ids: " ++ ids_that_doesnt_exist
                       ++ " does not exist in the dataset"))
  else Ok filtered_ids.

(** ** get_filtered_ids / get_converted_ids (filter.py, 105-122) *)

(** [f"{filter}"]: the repr of the filter argument, keys and string
    values through [repr]; a function shows as its [str]. *)
Definition filter_repr (f : FilterArg) : string :=
  match f with
  | FNone => "None"
  | FDict d =>
      "{" ++ String.concat ", "
        (map (fun '(t, items) =>
                str_repr t ++ ": {" ++
                String.concat ", " (map (fun '(k, v) => str_repr k ++ ": " ++ py_repr v)
                               items) ++ "}") d) ++ "}"
  | FCallable text _ => text
  end.

(** [partial(dp_filter_python, filter=filter)]: [filter.keys()] fails on
    anything but a dict. *)
Definition dp_filter_partial (filter : FilterArg) (x : RowView)
  : Result PyObj :=
  match filter with
  | FDict d => dp_filter_python x d
  | FNone => Raise (AttributeError "'NoneType' object has no attribute 'keys'")
  | FCallable _ _ =>
      Raise (AttributeError "'function' object has no attribute 'keys'")
  end.

Definition get_filtered_ids (dataset : View) (filter : FilterArg)
  : Result (list nat) :=
  let* view := view_filter (dp_filter_partial filter) dataset in
  let filtered_ids := sample_indices view in
  if Nat.eqb (List.length filtered_ids) 0
  then Raise (ValueError (filter_repr filter ++ " does not exist in the dataset."))
  else Ok filtered_ids.

Definition either_msg : string := "Either filter or ids should be specified.".

(** [bool(ids)] for [Optional[List[str]]]. *)
Definition ids_truthy (ids : option (list string)) : bool :=
  match ids with
  | Some (_ :: _) => true
  | _ => false
  end.

Definition get_converted_ids (dataset : View) (filter : FilterArg)
    (ids : option (list string)) : Result (list nat) :=
  if ids_truthy ids && filter_truthy filter
  then Raise (ValueError either_msg)
  else
    match ids with
    | Some ((_ :: _) as l) => get_id_indices dataset l
    | _ => get_filtered_ids dataset filter
    end.

(** ** The search facade (deeplake_vectorstore.py) *)

(** The state kept by [DeepLakeVectorStore.__init__] that [search]
    reads: the dataset returned by [create_or_load_dataset], the
    embedding function and [self._exec_option]. *)
Record VectorStore (EmbFn : Type) : Type := {
  vs_dataset : View;
  vs_embedding_function : option EmbFn;
  vs_exec_option : string
}.
Arguments vs_dataset {EmbFn} _.
Arguments vs_embedding_function {EmbFn} _.
Arguments vs_exec_option {EmbFn} _.

(** [__init__] (lines 62-77), from the dataset that
    [create_or_load_dataset] produced. *)
Definition vectorstore_init {EmbFn} (dataset : View)
    (embedding_function : option EmbFn) (exec_option : string)
  : VectorStore EmbFn :=
  {| vs_dataset := dataset;
     vs_embedding_function := embedding_function;
     vs_exec_option := exec_option |}.

(** The arguments of [search]. *)
Record SearchArgs (Emb EmbFn : Type) : Type := {
  prompt : option string;
  embedding_function : option EmbFn;
  embedding : option Emb;
  k : Z;
  distance_metric : string;
  query : option string;
  filter : FilterArg;
  exec_option : option string;
  embedding_tensor : string
}.
Arguments prompt {Emb EmbFn} _.
Arguments embedding_function {Emb EmbFn} _.
Arguments embedding {Emb EmbFn} _.
Arguments k {Emb EmbFn} _.
Arguments distance_metric {Emb EmbFn} _.
Arguments query {Emb EmbFn} _.
Arguments filter {Emb EmbFn} _.
Arguments exec_option {Emb EmbFn} _.
Arguments embedding_tensor {Emb EmbFn} _.

(** The default values of the signature of [search] (lines 120-131). *)
Definition search_defaults {Emb EmbFn} : SearchArgs Emb EmbFn :=
  {| prompt := None;
     embedding_function := None;
     embedding := None;
     k := 4%Z;
     distance_metric := "L2";
     query := None;
     filter := FNone;
     exec_option := Some "python";
     embedding_tensor := "embedding" |}.

(** The call [search] ends in, whose result it returns. *)
Inductive SearchCall (Emb Embs Runtime : Type) : Type :=
| PythonVectorSearch (deeplake_dataset : View) (query_embedding : Emb)
    (embeddings : Embs) (distance_metric : string) (k : Z)
| VectorSearch (query_embedding : Emb) (distance_metric : string)
    (deeplake_dataset : View) (k : Z) (tql_string : option string)
    (tql_filter : string) (embedding_tensor : string) (runtime : Runtime).
Arguments PythonVectorSearch {Emb Embs Runtime}.
Arguments VectorSearch {Emb Embs Runtime}.

Definition ascii_lower (c : ascii) : ascii :=
  let n := nat_of_ascii c in
  if (Nat.leb 65 n) && (Nat.leb n 90) then ascii_of_nat (n + 32)%nat else c.

(** [str.lower] on ASCII text. *)
Fixpoint lower (s : string) : string :=
  match s with
  | EmptyString => EmptyString
  | String c t => String (ascii_lower c) (lower t)
  end.

(** [exec_option or self._exec_option]. *)
Definition resolve_exec_option (arg : option string) (inst : string) : string :=
  match arg with
  | Some s => if String.eqb s "" then inst else s
  | None => inst
  end.

(** [bool(query)] for [Optional[str]]. *)
Definition str_opt_truthy (o : option string) : bool :=
  match o with
  | Some s => negb (String.eqb s "")
  | None => false
  end.

Definition valid_exec_options : list string :=
  ["python"; "compute_engine"; "tensor_db"].

(** Modelled from the spec: [utils.check_indra_installation] (not under
    src/), section 4.4: fails with a capability-missing error when the
    option needs the native engine and it is not installed. *)
Definition check_indra_installation (exec_option : string)
    (indra_installed : bool) : Result unit :=
  if (String.eqb exec_option "compute_engine"
      || String.eqb exec_option "tensor_db") && negb indra_installed
  then Raise (ModuleNotFoundError ("indra is required for exec_option=" ++ exec_option))
  else Ok tt.

Section Search.

(** The helpers of [dataset_utils] and [utils] that [search] calls and
    that are not part of the modelled sources. *)
Context {Emb EmbFn Embs Runtime : Type}.
Variable get_embedding : option Emb -> option string -> option EmbFn -> Result Emb.
Variable fetch_embeddings : string -> View -> string -> Result Embs.
Variable get_runtime_from_exec_option : string -> Runtime.
(** [_INDRA_INSTALLED]. *)
Variable indra_installed : bool.

(** [query_emb] is only assigned on the embedding branch; [None] stands
    for the unassigned local, whose use raises [UnboundLocalError]. *)
Definition use_query_emb (query_emb : option Emb) : Result Emb :=
  match query_emb with
  | Some q => Ok q
  | None => Raise (UnboundLocalError "query_emb")
  end.

(** [DeepLakeVectorStore.search] (lines 158-224). *)
Definition search (self : VectorStore EmbFn) (a : SearchArgs Emb EmbFn)
  : Result (SearchCall Emb Embs Runtime) :=
  let exec_option := resolve_exec_option (exec_option a) (vs_exec_option self) in
  if negb (existsb (String.eqb exec_option) valid_exec_options)
  then Raise (ValueError "Invalid `exec_option` it should be either `python`, `compute_engine` or `tensor_db`.")
  else
  let* query_emb :=
    match embedding_function a, embedding a with
    | None, None =>
        let* _ := exact_text_search (vs_dataset self) (prompt a) in
        Ok None
    | _, _ =>
        let* e := get_embedding (embedding a) (prompt a) (embedding_function a) in
        Ok (Some e)
    end in
  let runtime := get_runtime_from_exec_option exec_option in
  if String.eqb exec_option "python" then
    match query a with
    | Some _ =>
        Raise (NotImplementedError ("User-specified TQL queries are not support for exec_option=" ++ exec_option ++ " "))
    | None =>
        let* view := attribute_based_filtering_python (vs_dataset self) (filter a) in
        let* embeddings := fetch_embeddings exec_option view (embedding_tensor a) in
        let* q := use_query_emb query_emb in
        Ok (PythonVectorSearch view q embeddings (lower (distance_metric a)) (k a))
    end
  else
    if py_type_eqb (filter_type (filter a)) TTypingCallable
    then Raise (NotImplementedError ("UDF filter function are not supported with exec_option=" ++ exec_option))
    else if str_opt_truthy (query a) && filter_truthy (filter a)
    then Raise (NotImplementedError "query and filter parameters cannot be specified simultaneously.")
    else
      let* _ := check_indra_installation exec_option indra_installed in
      (* [attribute_based_filtering_tql(self.dataset, filter)]: [filter]
         lands in the [logger] position, [filter] keeps its default. *)
      let* r := attribute_based_filtering_tql (vs_dataset self)
                  (OtherObject (filter a)) FNone false in
      let '((view, tql_filter), _) := r in
      let* q := use_query_emb query_emb in
      Ok (VectorSearch q (lower (distance_metric a)) view (k a) (query a)
                       tql_filter (embedding_tensor a) runtime).

End Search.

(** ** Concrete helpers for evaluating [search]

    The theorems about [search] hold for every choice of the helpers of
    the section above; the following choice is used to run [search] on
    concrete inputs. *)

(** Modelled from the spec: [dataset_utils.get_embedding] (not under
    src/), section 4.3: pass through a given embedding, or apply the
    embedding function to the prompt, and fail with InvalidInput when
    neither is resolvable. *)
Definition get_embedding_spec (embedding : option (list Z)) (prompt : option string)
    (embedding_function : option (string -> list Z)) : Result (list Z) :=
  match embedding, prompt, embedding_function with
  | Some e, _, _ => Ok e
  | None, Some p, Some f => Ok (f p)
  | _, _, _ => Raise (ValueError "Either embedding array or embedding_function should be specified!")
  end.

(** Modelled from the spec: [dataset_utils.fetch_embeddings] (not under
    src/), section 4.3: the values of the embedding column of the view. *)
Fixpoint fetch_embeddings_spec (exec_option : string) (view : View)
    (embedding_tensor : string) : Result (list ColData) :=
  match view with
  | [] => Ok []
  | (_, r) :: rest =>
      let* c := row_value r embedding_tensor in
      let* cs := fetch_embeddings_spec exec_option rest embedding_tensor in
      Ok (c :: cs)
  end.

(** Modelled from the spec: [utils.get_runtime_from_exec_option] (not
    under src/), section 3: the runtime descriptor names the execution
    option it corresponds to. *)
Definition get_runtime_from_exec_option_spec (exec_option : string) : string :=
  exec_option.

Definition search_spec (indra_installed : bool)
  : VectorStore (string -> list Z) -> SearchArgs (list Z) (string -> list Z)
    -> Result (SearchCall (list Z) (list ColData) string) :=
  search get_embedding_spec fetch_embeddings_spec
    get_runtime_from_exec_option_spec indra_installed.

(** ** delete, __len__ (deeplake_vectorstore.py, lines 226-257) *)

Definition set_dataset {EmbFn} (self : VectorStore EmbFn) (ds : View)
  : VectorStore EmbFn :=
  {| vs_dataset := ds;
     vs_embedding_function := vs_embedding_function self;
     vs_exec_option := vs_exec_option self |}.

(** [DeepLakeVectorStore.__len__]. *)
Definition vs_len {EmbFn} (self : VectorStore EmbFn) : nat :=
  List.length (vs_dataset self).

Section Delete.

(** The helpers of [dataset_utils] that [delete] calls; both act on the
    dataset and are not part of the modelled sources. *)
Context {EmbFn : Type}.
Variable delete_all_samples_if_specified :
  View -> option bool -> Result (View * bool).
Variable delete_and_commit : View -> list nat -> Result View.

(** [DeepLakeVectorStore.delete]: [self.dataset] is reassigned before the
    ids are resolved, so the store returned next to an exception keeps
    that assignment. *)
Definition delete (self : VectorStore EmbFn) (ids : option (list string))
    (filter : FilterArg) (delete_all : option bool)
  : VectorStore EmbFn * Result bool :=
  match delete_all_samples_if_specified (vs_dataset self) delete_all with
  | Raise e => (self, Raise e)
  | Ok (ds, dataset_deleted) =>
      let self := set_dataset self ds in
      if dataset_deleted then (self, Ok true)
      else
        match get_converted_ids ds filter ids with
        | Raise e => (self, Raise e)
        | Ok idx =>
            match delete_and_commit ds idx with
            | Raise e => (self, Raise e)
            | Ok ds' => (set_dataset self ds', Ok true)
            end
        end
  end.

End Delete.

(** Modelled from the spec: [dataset_utils.delete_all_samples_if_specified]
    (not under src/), section 4.3: drop the entire dataset when full
    deletion is requested and report whether it did. *)
Definition delete_all_samples_if_specified_spec (ds : View) (delete_all : option bool)
  : Result (View * bool) :=
  match delete_all with
  | Some true => Ok ([], true)
  | _ => Ok (ds, false)
  end.

(** The rows of a dataset after some are deleted: the remaining rows in
    order, indexed again from [n]. *)
Fixpoint renumber_from (n : nat) (v : View) : View :=
  match v with
  | [] => []
  | (_, r) :: rest => (n, r) :: renumber_from (S n) rest
  end.

(** Modelled from the spec: [dataset_utils.delete_and_commit] (not under
    src/), section 4.3: delete the rows at the given indices; the rows
    that remain are indexed from 0 again. *)
Definition delete_and_commit_spec (ds : View) (idx : list nat) : Result View :=
  Ok (renumber_from 0 (List.filter (fun p => negb (existsb (Nat.eqb (fst p)) idx)) ds)).

(** The id stored in a row's [ids] column. *)
Definition row_id (r : RowView) : string :=
  match row_value r "ids" with
  | Ok (CText s) => s
  | _ => ""
  end.

Definition ids_of (v : View) : list string := map (fun p => row_id (snd p)) v.

(** Every row has a text [ids] column. *)
Definition rows_have_ids (v : View) : Prop :=
  forall p, In p v -> exists s, row_value (snd p) "ids" = Ok (CText s).

(** ** Sample data

    A two-row dataset with a text column, an id column, an embedding
    column and a JSON metadata column. *)

Definition sample_row (text id : string) : RowView :=
  {| rv_len := 1;
     rv_cols := [("text", CText text); ("ids", CText id);
                 ("embedding", CText "[0.5, 0.25]");
                 ("metadata", CDict [("source", PStr text); ("page", PInt 1)])] |}.

Definition sample_dataset : View :=
  [(0, sample_row "hello world" "a"); (1, sample_row "goodbye" "c")].

(** A store over the sample dataset, and the arguments of a [search]
    call that passes a prompt and nothing else. *)
Definition sample_store (exec_option : string) : VectorStore (string -> list Z) :=
  vectorstore_init sample_dataset None exec_option.

Definition search_args (prompt : option string) (embedding : option (list Z))
    (filter : FilterArg) (exec_option : option string)
  : SearchArgs (list Z) (string -> list Z) :=
  {| prompt := prompt;
     embedding_function := None;
     embedding := embedding;
     k := 4%Z;
     distance_metric := "L2";
     query := None;
     filter := filter;
     exec_option := exec_option;
     embedding_tensor := "embedding" |}.

(** The arguments of a [search] call that passes a TQL query. *)
Definition query_args (query : option string) (embedding : option (list Z))
    (filter : FilterArg) (exec_option : option string)
  : SearchArgs (list Z) (string -> list Z) :=
  {| prompt := None;
     embedding_function := None;
     embedding := embedding;
     k := 4%Z;
     distance_metric := "L2";
     query := query;
     filter := filter;
     exec_option := exec_option;
     embedding_tensor := "embedding" |}.

(** A dict filter on the metadata column that row 1 satisfies. *)
Definition goodbye_filter : FilterDict := [("metadata", [("source", PStr "goodbye")])].

(** The arguments of a [search] call that passes an embedding function
    (the length of the prompt as a one-value embedding). *)
Definition embfn_args (prompt : option string) (query : option string)
    (exec_option : option string) : SearchArgs (list Z) (string -> list Z) :=
  {| prompt := prompt;
     embedding_function := Some (fun s => [Z.of_nat (String.length s)]);
     embedding := None;
     k := 4%Z;
     distance_metric := "L2";
     query := query;
     filter := FNone;
     exec_option := exec_option;
     embedding_tensor := "embedding" |}.

(** A function filter that keeps no row. *)
Definition keep_nothing : FilterArg :=
  FCallable "<function keep_nothing at 0x7f2e4c1d9ee0>" (fun _ => Ok (OVal (PBool false))).

(** Whether [search] ended in the local brute-force search. *)
Definition is_python_call {Emb Embs Runtime} (c : SearchCall Emb Embs Runtime) : bool :=
  match c with
  | PythonVectorSearch _ _ _ _ _ => true
  | VectorSearch _ _ _ _ _ _ _ _ => false
  end.

(** * Properties *)

(** ** Strings *)

Lemma str_app_assoc (a b c : string) : a ++ (b ++ c) = (a ++ b) ++ c.
Proof. induction a as [|x a IH]; simpl; [reflexivity | now rewrite IH]. Qed.

Lemma str_app_nil_r (a : string) : a ++ "" = a.
Proof. induction a as [|x a IH]; simpl; [reflexivity | now rewrite IH]. Qed.

Lemma str_length_app (a b : string) :
  String.length (a ++ b) = String.length a + String.length b.
Proof. induction a as [|x a IH]; simpl; [reflexivity | now rewrite IH]. Qed.

Lemma substring_0_full (a : string) : substring 0 (String.length a) a = a.
Proof. induction a as [|x a IH]; simpl; [reflexivity | now rewrite IH]. Qed.

Lemma substring_prefix (a b : string) :
  substring 0 (String.length a) (a ++ b) = a.
Proof. induction a as [|x a IH]; simpl; [now destruct b | now rewrite IH]. Qed.

Lemma substring_after_prefix (a b : string) (n : nat) :
  substring (String.length a) n (a ++ b) = substring 0 n b.
Proof. induction a as [|x a IH]; simpl; [reflexivity | exact IH]. Qed.

Lemma drop_last_app (a b : string) :
  drop_last (String.length b) (a ++ b) = a.
Proof.
  unfold drop_last. rewrite str_length_app.
  replace (String.length a + String.length b - String.length b)
    with (String.length a) by lia.
  apply substring_prefix.
Qed.

(** Right-associate every string append. *)
Ltac str_assoc := repeat progress (simpl; repeat rewrite <- str_app_assoc).

(** ** attribute_based_filtering_tql *)

(** The literal of a value in the fragment: strings single-quoted, any
    other value in its plain textual form. *)
Definition tql_literal (v : PyValue) : string :=
  match v with
  | PStr s => "'" ++ s ++ "'"
  | _ => py_str v
  end.

Definition tql_clause (tensor key : string) (v : PyValue) : string :=
  tensor ++ "['" ++ key ++ "'] == " ++ tql_literal v.

(** One clause per tensor and key/value pair, in iteration order. *)
Definition tql_clauses (d : FilterDict) : list string :=
  flat_map (fun '(t, items) => map (fun '(key, v) => tql_clause t key v) items) d.

(** Every clause followed by [" and "]. *)
Definition concat_and (cs : list string) : string :=
  String.concat "" (map (fun c => c ++ " and ") cs).

Lemma concat_and_cons (c : string) (cs : list string) :
  concat_and (c :: cs) = c ++ " and " ++ concat_and cs.
Proof.
  unfold concat_and. destruct cs as [|c' cs]; simpl.
  - reflexivity.
  - now str_assoc.
Qed.

Lemma concat_and_app (l1 l2 : list string) :
  concat_and (l1 ++ l2) = concat_and l1 ++ concat_and l2.
Proof.
  induction l1 as [|c l1 IH]; [reflexivity|].
  rewrite <- app_comm_cons, !concat_and_cons, IH. now str_assoc.
Qed.

Lemma concat_and_join (c : string) (cs : list string) :
  concat_and (c :: cs) = String.concat " and " (c :: cs) ++ " and ".
Proof.
  revert c. induction cs as [|c' cs IH]; intro c.
  - rewrite concat_and_cons. reflexivity.
  - rewrite concat_and_cons, IH. simpl. now str_assoc.
Qed.

Lemma tql_val_str_literal (v : PyValue) : tql_val_str v = tql_literal v.
Proof. destruct v as [| [] | | ]; reflexivity. Qed.

Lemma tql_items_spec (t : string) (items : list (string * PyValue)) (acc : string) :
  tql_items t items acc
  = acc ++ concat_and (map (fun '(key, v) => tql_clause t key v) items).
Proof.
  revert acc. induction items as [|[key v] items IH]; intro acc; simpl.
  - now rewrite str_app_nil_r.
  - rewrite IH, concat_and_cons, tql_val_str_literal.
    unfold tql_clause. now str_assoc.
Qed.

Lemma tql_tensors_spec (d : FilterDict) (acc : string) :
  tql_tensors d acc = acc ++ concat_and (tql_clauses d).
Proof.
  revert acc. induction d as [|[t items] d IH]; intro acc; simpl.
  - now rewrite str_app_nil_r.
  - rewrite IH, tql_items_spec. unfold tql_clauses; simpl.
    rewrite concat_and_app. now str_assoc.
Qed.

Lemma tql_fragment_join (d : FilterDict) :
  drop_last 5 (tql_tensors d "") = String.concat " and " (tql_clauses d).
Proof.
  rewrite tql_tensors_spec. simpl.
  destruct (tql_clauses d) as [|c cs].
  - reflexivity.
  - rewrite concat_and_join. exact (drop_last_app _ " and ").
Qed.

(** C2: for a mapping filter, [attribute_based_filtering_tql] returns the
    view unmodified and the fragment obtained by writing
    ["<tensor>['<key>'] == <literal> and "] for every tensor and every
    key/value pair (strings single-quoted, other values in plain text)
    and stripping the trailing [" and "]; that is the clauses joined by
    [" and "].  The filter [{"a": {"k": "v"}, "b": {"k2": 2}}] gives
    ["a['k'] == 'v' and b['k2'] == 2"], an absent filter [""]. *)
Theorem attribute_based_filtering_tql_mapping :
  (forall view logger d,
      attribute_based_filtering_tql view logger (FDict d) false
      = Ok ((view, drop_last 5 (concat_and (tql_clauses d))), [])
   /\ attribute_based_filtering_tql view logger (FDict d) false
      = Ok ((view, String.concat " and " (tql_clauses d)), []))
  /\ (forall view d debug_mode, exists logs,
      attribute_based_filtering_tql view ModuleLogger (FDict d) debug_mode
      = Ok ((view, String.concat " and " (tql_clauses d)), logs))
  /\ (forall view logger,
      attribute_based_filtering_tql view logger
        (FDict [("a", [("k", PStr "v")]); ("b", [("k2", PInt 2)])]) false
      = Ok ((view, "a['k'] == 'v' and b['k2'] == 2"), []))
  /\ (forall view logger debug_mode,
      attribute_based_filtering_tql view logger FNone false = Ok ((view, ""), [])
      /\ exists logs,
         attribute_based_filtering_tql view ModuleLogger FNone debug_mode
         = Ok ((view, ""), logs)).
Proof.
  split; [|split; [|split]].
  - intros view logger d. unfold attribute_based_filtering_tql. split.
    + rewrite tql_tensors_spec. reflexivity.
    + rewrite tql_fragment_join. reflexivity.
  - intros view d [|]; unfold attribute_based_filtering_tql;
      rewrite tql_fragment_join; eexists; reflexivity.
  - intros view logger. reflexivity.
  - intros view logger [|]; split; try reflexivity; eexists; reflexivity.
Qed.

(** C10: a filter that is present but not a mapping (a function) is
    dropped: [attribute_based_filtering_tql] returns the view unchanged
    with the empty fragment and raises nothing. *)
Theorem attribute_based_filtering_tql_callable :
  forall view name f,
    (forall logger,
        attribute_based_filtering_tql view logger (FCallable name f) false
        = Ok ((view, ""), []))
    /\ (forall debug_mode, exists logs,
        attribute_based_filtering_tql view ModuleLogger (FCallable name f) debug_mode
        = Ok ((view, ""), logs)).
Proof.
  intros view name f. split.
  - reflexivity.
  - intros [|]; eexists; reflexivity.
Qed.

(** ** dp_filter_python *)

(** [metadata[k]] when [k in metadata], on a JSON dict. *)
Definition dict_get (m : list (string * PyValue)) (key : string) : option PyValue :=
  match find (fun p => String.eqb (fst p) key) m with
  | Some (_, v) => Some v
  | None => None
  end.

(** Every listed key is present in the dict with an equal value. *)
Definition keys_match (m : list (string * PyValue)) (items : list (string * PyValue))
  : Prop :=
  forall key v, In (key, v) items ->
    exists mv, dict_get m key = Some mv /\ py_eq v mv = true.

(** The constraints of every named tensor hold on the row. *)
Definition row_satisfies (x : RowView) (d : FilterDict) : Prop :=
  forall t items, In (t, items) d ->
    forall m, row_value x t = Ok (CDict m) -> keys_match m items.

(** Every named tensor of the filter is a JSON column of the row. *)
Definition named_tensors_are_dicts (x : RowView) (d : FilterDict) : Prop :=
  forall t items, In (t, items) d -> exists m, row_value x t = Ok (CDict m).

Lemma all_match_dict (m : list (string * PyValue)) (items : list (string * PyValue)) :
  exists b, all_match (CDict m) items = Ok b /\ (b = true <-> keys_match m items).
Proof.
  induction items as [|[key v] items IH].
  - exists true. split; [reflexivity|]. split; [|reflexivity].
    intros _ key v [].
  - destruct IH as [b [Hb Hiff]]. simpl.
    destruct (find (fun p => String.eqb (fst p) key) m) as [[k' mv]|] eqn:Hf.
    + destruct (py_eq v mv) eqn:Heq.
      * exists b. split; [exact Hb|]. rewrite Hiff. split.
        -- intros Hk key0 v0 [Hkv|Hin].
           ++ inversion Hkv; subst. exists mv. unfold dict_get. now rewrite Hf.
           ++ now apply Hk.
        -- intros Hk key0 v0 Hin. apply Hk. now right.
      * exists false. split; [reflexivity|]. split; [discriminate|].
        intros Hk. destruct (Hk key v (or_introl eq_refl)) as [mv' [Hg Hmv]].
        unfold dict_get in Hg. rewrite Hf in Hg. inversion Hg; subst.
        congruence.
    + exists false. split; [reflexivity|]. split; [discriminate|].
      intros Hk. destruct (Hk key v (or_introl eq_refl)) as [mv' [Hg _]].
      unfold dict_get in Hg. rewrite Hf in Hg. discriminate.
Qed.

Lemma dp_filter_loop_spec (x : RowView) (d : FilterDict) :
  named_tensors_are_dicts x d ->
  forall result, exists r, dp_filter_loop x d result = Ok r
    /\ (truthy r = true <-> truthy result = true /\ row_satisfies x d).
Proof.
  induction d as [|[t items] d IH]; intros Hd result.
  - exists result. split; [reflexivity|]. split; [|tauto].
    intros H. split; [exact H|]. intros t items [].
  - destruct (Hd t items (or_introl eq_refl)) as [m Hm].
    assert (Hd' : named_tensors_are_dicts x d)
      by (intros t' items' Hin; apply (Hd t' items'); now right).
    simpl. rewrite Hm. simpl.
    assert (Hcons : row_satisfies x ((t, items) :: d)
                    <-> keys_match m items /\ row_satisfies x d).
    { split.
      - intros Hs. split.
        + apply (Hs t items (or_introl eq_refl) m Hm).
        + intros t' items' Hin m' Hm'. apply (Hs t' items' (or_intror Hin) m' Hm').
      - intros [Hk Hs] t' items' [Heq|Hin] m' Hm'.
        + inversion Heq; subst. rewrite Hm in Hm'. inversion Hm'; subst. exact Hk.
        + exact (Hs t' items' Hin m' Hm'). }
    destruct (truthy result) eqn:Ht.
    + destruct (all_match_dict m items) as [b [Hb Hbiff]]. rewrite Hb. simpl.
      destruct (IH Hd' (OVal (PBool b))) as [r [Hr Hriff]].
      exists r. split; [exact Hr|]. rewrite Hriff, Hcons, <- Hbiff. simpl.
      intuition.
    + destruct (IH Hd' result) as [r [Hr Hriff]].
      exists r. split; [exact Hr|]. rewrite Hriff, Ht.
      intuition discriminate.
Qed.

Lemma dp_filter_python_truthy_iff (x : RowView) (d : FilterDict) :
    0 < rv_len x ->
    named_tensors_are_dicts x d ->
    exists r, dp_filter_python x d = Ok r
      /\ (truthy r = true <-> row_satisfies x d).
Proof.
  intros Hlen Hd. unfold dp_filter_python.
  destruct (dp_filter_loop_spec x d Hd (OList (repeat (PInt 1) (rv_len x))))
    as [r [Hr Hiff]].
  exists r. split; [exact Hr|]. rewrite Hiff. simpl. rewrite repeat_length.
  destruct (rv_len x); [lia|]. simpl. tauto.
Qed.

(** C3: on a row (a one-row view, so [len(x) > 0]) whose named tensors
    hold JSON dicts, [dp_filter_python] keeps the row exactly when, for
    every named tensor, every listed key is present with an equal value:
    the AND across all tensors and all keys. *)
Theorem dp_filter_python_keeps_iff :
  forall (x : RowView) (d : FilterDict),
    0 < rv_len x ->
    named_tensors_are_dicts x d ->
    exists r, dp_filter_python x d = Ok r
      /\ (truthy r = true <-> row_satisfies x d).
Proof. exact dp_filter_python_truthy_iff. Qed.

(** ** view.filter *)

(** Whether [pred] keeps a row, when it returns. *)
Definition kept (pred : RowView -> Result PyObj) (r : RowView) : bool :=
  match pred r with
  | Ok o => truthy o
  | Raise _ => false
  end.

Lemma view_filter_total (pred : RowView -> Result PyObj) (v : View) :
  (forall p, In p v -> exists o, pred (snd p) = Ok o) ->
  view_filter pred v = Ok (List.filter (fun p => kept pred (snd p)) v).
Proof.
  induction v as [|[i r] v IH]; intros Hall; [reflexivity|].
  destruct (Hall (i, r) (or_introl eq_refl)) as [o Ho]. simpl in Ho.
  cbn [view_filter]. rewrite Ho. cbn [bind].
  rewrite IH by (intros p Hp; apply Hall; now right). cbn [bind List.filter snd].
  replace (kept pred r) with (truthy o) by (unfold kept; now rewrite Ho).
  destruct (truthy o); reflexivity.
Qed.

(** ** exact_text_search *)

(** C8: on a view whose rows have a [text] column, [exact_text_search]
    returns the rows whose text contains the query, one score [1.0] per
    matching row, and as index the matching row indices when there is a
    match; with no match it emits the warning and returns no index,
    raising nothing. *)
Theorem exact_text_search_result :
  forall (view : View) (q : string),
    (forall p, In p view -> exists c, row_value (snd p) "text" = Ok c) ->
    exists v scores index warnings,
      exact_text_search view (Some q) = Ok ((v, scores, index), warnings)
      /\ v = List.filter (fun p => kept (text_pred (Some q)) (snd p)) view
      /\ List.length scores = List.length v
      /\ Forall (fun s => s = 1.0%float) scores
      /\ (v = [] -> index = None /\ warnings = [no_text_match_warning])
      /\ (v <> [] -> index = Some (sample_indices v) /\ warnings = []).
Proof.
  intros view q Htext.
  assert (Hall : forall p, In p view -> exists o, text_pred (Some q) (snd p) = Ok o).
  { intros p Hp. destruct (Htext p Hp) as [c Hc].
    unfold text_pred. rewrite Hc. simpl.
    destruct c; eexists; reflexivity. }
  unfold exact_text_search. rewrite (view_filter_total _ _ Hall). simpl.
  set (v := List.filter _ view).
  destruct v as [|p v'] eqn:Hv; simpl.
  - do 4 eexists. split; [reflexivity|].
    split; [reflexivity|]. split; [reflexivity|]. split; [constructor|].
    split; [intros _; split; reflexivity|]. intros H; now contradiction H.
  - do 4 eexists. split; [reflexivity|].
    split; [reflexivity|]. split; [simpl; now rewrite repeat_length|].
    split; [apply Forall_forall; intros s Hs;
           exact (repeat_spec (S (List.length v')) _ _ Hs)|].
    split; [discriminate|]. intros _. split; reflexivity.
Qed.

(** ** get_id_indices *)

(** Requested ids are strings and [filtered_ids] are row indices, so no
    requested id is ever found among them: the message lists every
    requested id. *)
Lemma missing_ids_lists_all (ids : list string) (ns : list nat) :
  get_ids_that_does_not_exist (map PStr ids) (map (fun n => PInt (Z.of_nat n)) ns)
  = drop_last 2 (String.concat "" (map (fun id => "`" ++ id ++ "`, ") ids)).
Proof.
  unfold get_ids_that_does_not_exist. f_equal.
  assert (Hnone : forall id, existsb (py_eq (PStr id))
                               (map (fun n => PInt (Z.of_nat n)) ns) = false).
  { intro id. induction ns as [|n ns IH]; [reflexivity|]. exact IH. }
  assert (Hgen : forall acc,
             fold_left
               (fun acc id =>
                  if existsb (py_eq id) (map (fun n => PInt (Z.of_nat n)) ns)
                  then acc else acc ++ "`" ++ py_str id ++ "`, ")
               (map PStr ids) acc
             = acc ++ String.concat "" (map (fun id => "`" ++ id ++ "`, ") ids)).
  { induction ids as [|id ids IH]; intro acc; simpl.
    - now rewrite str_app_nil_r.
    - rewrite Hnone, IH. destruct ids; simpl; now str_assoc. }
  apply Hgen.
Qed.

(** C4: requesting ["a", "b", "c"] from a dataset holding only the ids
    "a" and "c" raises, and the message names every requested id, the
    present "a" and "c" as well as the missing "b". *)
Theorem get_id_indices_names_present_ids :
  get_id_indices sample_dataset ["a"; "b"; "c"]
  = Raise (ValueError "The following ids: `a`, `b`, `c` does not exist in the dataset").
Proof. vm_compute. reflexivity. Qed.

(** ** get_converted_ids *)

Lemma view_filter_raise (pred : RowView -> Result PyObj) (v : View) (e : PyExc) :
  view_filter pred v = Raise e -> exists r, pred r = Raise e.
Proof.
  induction v as [|[i r] v IH]; simpl; [discriminate|].
  destruct (pred r) as [o|e'] eqn:Hp; simpl.
  - destruct (view_filter pred v) as [v'|e'']; simpl; [discriminate|].
    intro H. now apply IH.
  - intro H. inversion H; subst. now exists r.
Qed.

(** The row predicates of the filter module raise no [ValueError]. *)
Definition not_value_error (e : PyExc) : Prop :=
  match e with ValueError _ => False | _ => True end.

Lemma all_match_raise (c : ColData) (items : list (string * PyValue)) (e : PyExc) :
  all_match c items = Raise e -> not_value_error e.
Proof.
  induction items as [|[key v] items IH]; simpl; [discriminate|].
  destruct c as [m|s].
  - destruct (find _ m) as [[k' mv]|]; [|discriminate].
    destruct (py_eq v mv); [exact IH|discriminate].
  - destruct (str_contains key s); [|discriminate].
    intro H. inversion H; subst. exact I.
Qed.

Lemma dp_filter_loop_raise (x : RowView) (d : FilterDict) (result : PyObj) (e : PyExc) :
  dp_filter_loop x d result = Raise e -> not_value_error e.
Proof.
  revert result. induction d as [|[t items] d IH]; intro result; simpl; [discriminate|].
  unfold row_value. destruct (find _ (rv_cols x)) as [[t' c]|]; simpl.
  - destruct (truthy result).
    + destruct (all_match c items) as [b|e'] eqn:Ha; simpl.
      * apply IH.
      * intro H. inversion H; subst. exact (all_match_raise _ _ _ Ha).
    + apply IH.
  - intro H. inversion H; subst. exact I.
Qed.

Lemma dp_filter_partial_raise (f : FilterArg) (x : RowView) (e : PyExc) :
  dp_filter_partial f x = Raise e -> not_value_error e.
Proof.
  destruct f as [|d|name g]; simpl.
  - intro H. inversion H; subst. exact I.
  - apply dp_filter_loop_raise.
  - intro H. inversion H; subst. exact I.
Qed.

Lemma not_found_msg_ne_either (a : string) :
  a ++ " does not exist in the dataset." <> either_msg.
Proof.
  intro H.
  assert (Hl := f_equal String.length H).
  rewrite str_length_app in Hl. simpl in Hl.
  assert (Hs := f_equal (substring (String.length a) 31) H).
  rewrite substring_after_prefix in Hs.
  replace (String.length a) with 10 in Hs by lia.
  vm_compute in Hs. discriminate Hs.
Qed.

Lemma get_filtered_ids_not_either (ds : View) (f : FilterArg) :
  get_filtered_ids ds f <> Raise (ValueError either_msg).
Proof.
  unfold get_filtered_ids.
  destruct (view_filter (dp_filter_partial f) ds) as [v|e] eqn:Hv; simpl.
  - destruct (Nat.eqb _ 0); [|discriminate].
    intro H. inversion H as [Hm]. exact (not_found_msg_ne_either _ Hm).
  - intro H. inversion H; subst.
    destruct (view_filter_raise _ _ _ Hv) as [r Hr].
    exact (dp_filter_partial_raise _ _ _ Hr).
Qed.

(** C9: with a filter given and an empty [ids] list, [get_converted_ids]
    does not raise the mutual-exclusion error: it resolves through
    [get_filtered_ids]. *)
Theorem get_converted_ids_empty_ids :
  forall (ds : View) (f : FilterArg),
    f <> FNone ->
    get_converted_ids ds f (Some []) = get_filtered_ids ds f
    /\ get_converted_ids ds f (Some []) <> Raise (ValueError either_msg).
Proof.
  intros ds f _.
  assert (H : get_converted_ids ds f (Some []) = get_filtered_ids ds f)
    by reflexivity.
  split; [exact H|]. rewrite H. apply get_filtered_ids_not_either.
Qed.

(** C7 (counterexample): an empty dict is a filter that is present, yet
    given together with a non-empty [ids] list it raises no
    mutual-exclusion error: the ids are resolved. *)
Lemma get_converted_ids_empty_dict_with_ids :
  FDict [] <> FNone
  /\ get_converted_ids sample_dataset (FDict []) (Some ["a"]) = Ok [0].
Proof. split; [discriminate | vm_compute; reflexivity]. Qed.

(** C7 (amended): [get_converted_ids] raises the mutual-exclusion error
    exactly when [ids] is a non-empty list and the filter is truthy (a
    non-empty dict or a function); otherwise a non-empty [ids] list is
    resolved by [get_id_indices] and in every other case the filter is
    resolved by [get_filtered_ids]. *)
Theorem get_converted_ids_dispatch :
  forall (ds : View) (f : FilterArg) (ids : option (list string)),
    (ids_truthy ids = true -> filter_truthy f = true ->
     get_converted_ids ds f ids = Raise (ValueError either_msg))
    /\ (forall l, ids = Some l -> l <> [] -> filter_truthy f = false ->
        get_converted_ids ds f ids = get_id_indices ds l)
    /\ (ids_truthy ids = false ->
        get_converted_ids ds f ids = get_filtered_ids ds f).
Proof.
  intros ds f ids. unfold get_converted_ids. split; [|split].
  - intros Hi Hf. now rewrite Hi, Hf.
  - intros l -> Hl Hf. destruct l as [|x l]; [contradiction|].
    now rewrite Hf.
  - intros Hi. rewrite Hi. simpl.
    destruct ids as [[|x l]|]; [reflexivity|discriminate|reflexivity].
Qed.

(** ** search *)

Section SearchProperties.

Context {Emb EmbFn Embs Runtime : Type}.
Variable get_embedding : option Emb -> option string -> option EmbFn -> Result Emb.
Variable fetch_embeddings : string -> View -> string -> Result Embs.
Variable get_runtime_from_exec_option : string -> Runtime.

Ltac raised := eexists; reflexivity.

(** C1: when neither an embedding nor an embedding function is passed,
    [search] runs the exact text search but does not return its result:
    it goes on to the ranking call, which reads the unassigned
    [query_emb], so every such call raises. *)
Theorem search_text_fallback_raises :
  forall (indra_installed : bool) (self : VectorStore EmbFn)
         (a : SearchArgs Emb EmbFn),
    embedding_function a = None -> embedding a = None ->
    exists e, search get_embedding fetch_embeddings get_runtime_from_exec_option
                indra_installed self a = Raise e.
Proof.
  intros indra_installed self a Hf He. unfold search. rewrite Hf, He.
  destruct (negb _); [raised|].
  destruct (exact_text_search (vs_dataset self) (prompt a)); simpl; [|raised].
  destruct (String.eqb _ "python").
  - destruct (query a); [raised|].
    destruct (attribute_based_filtering_python _ _); simpl; [|raised].
    destruct (fetch_embeddings _ _ _); simpl; raised.
  - destruct (py_type_eqb _ _); [raised|].
    destruct (_ && _); [raised|].
    destruct (check_indra_installation _ _); simpl; raised.
Qed.

(** C5: with a delegated execution option, a function filter is not
    rejected: [type(filter) == Callable] never holds, the call is
    delegated on the whole dataset and the filter is dropped (empty
    fragment). *)
Theorem search_delegated_accepts_callable_filter :
  forall (self : VectorStore EmbFn) (a : SearchArgs Emb EmbFn)
         (name : string) (f : RowView -> Result PyObj) (q : Emb),
    In (resolve_exec_option (exec_option a) (vs_exec_option self))
       ["compute_engine"; "tensor_db"] ->
    filter a = FCallable name f ->
    query a = None ->
    (embedding_function a <> None \/ embedding a <> None) ->
    get_embedding (embedding a) (prompt a) (embedding_function a) = Ok q ->
    search get_embedding fetch_embeddings get_runtime_from_exec_option
      true self a
    = Ok (VectorSearch q (lower (distance_metric a)) (vs_dataset self) (k a)
            None "" (embedding_tensor a)
            (get_runtime_from_exec_option
               (resolve_exec_option (exec_option a) (vs_exec_option self)))).
Proof.
  intros self a name f q Hin Hfilter Hquery Hemb Hq.
  assert (Hcase : resolve_exec_option (exec_option a) (vs_exec_option self) = "compute_engine"
                  \/ resolve_exec_option (exec_option a) (vs_exec_option self) = "tensor_db")
    by (destruct Hin as [H|[H|[]]]; auto).
  unfold search. rewrite Hfilter, Hquery.
  destruct (embedding_function a) as [ef|] eqn:Hef;
    destruct (embedding a) as [em|] eqn:Hem; rewrite ?Hef, ?Hem in Hq;
    try (destruct Hemb as [Hemb|Hemb]; contradiction Hemb; reflexivity);
    rewrite Hq; destruct Hcase as [Heo|Heo]; rewrite Heo; reflexivity.
Qed.

(** On every successful call the local search is returned exactly when
    the effective option is "python". *)
Lemma search_python_call_iff :
  forall indra_installed (self : VectorStore EmbFn) (a : SearchArgs Emb EmbFn) call,
    search get_embedding fetch_embeddings get_runtime_from_exec_option
      indra_installed self a = Ok call ->
    (is_python_call call = true
     <-> resolve_exec_option (exec_option a) (vs_exec_option self) = "python").
Proof.
  intros indra_installed self a call. unfold search.
  set (eo := resolve_exec_option (exec_option a) (vs_exec_option self)).
  destruct (negb _); [discriminate|].
  destruct (match embedding_function a, embedding a with
            | None, None => _ | _, _ => _ end) as [qe|e]; simpl; [|discriminate].
  destruct (String.eqb eo "python") eqn:Hpy.
  - apply String.eqb_eq in Hpy.
    destruct (query a); [discriminate|].
    destruct (attribute_based_filtering_python _ _); simpl; [|discriminate].
    destruct (fetch_embeddings _ _ _); simpl; [|discriminate].
    destruct qe; simpl; [|discriminate].
    intro H. inversion H; subst. simpl. tauto.
  - apply String.eqb_neq in Hpy.
    destruct (py_type_eqb _ _); [discriminate|].
    destruct (_ && _); [discriminate|].
    destruct (check_indra_installation _ _); simpl; [|discriminate].
    destruct qe; simpl; [|discriminate].
    intro H. inversion H; subst. simpl. split; [discriminate|contradiction].
Qed.

(** C6: a call that does not pass [exec_option] receives the default
    "python", which is truthy, so [exec_option or self._exec_option]
    never falls back to the option the store was built with: whatever
    that option, such a call resolves to "python" and, when it returns,
    returns the local search. *)
Theorem search_default_exec_option_ignores_instance :
  forall indra_installed (self : VectorStore EmbFn) (a : SearchArgs Emb EmbFn) call,
    exec_option a = exec_option (@search_defaults Emb EmbFn) ->
    resolve_exec_option (exec_option a) (vs_exec_option self) = "python"
    /\ (search get_embedding fetch_embeddings get_runtime_from_exec_option
          indra_installed self a = Ok call ->
        is_python_call call = true).
Proof.
  intros indra_installed self a call Ha.
  assert (Hr : resolve_exec_option (exec_option a) (vs_exec_option self) = "python")
    by (rewrite Ha; reflexivity).
  split; [exact Hr|].
  intro H. apply (proj2 (search_python_call_iff indra_installed self a call H)).
  exact Hr.
Qed.

End SearchProperties.

(** ** Concrete instances *)

(** The sample store answers a prompt-only search by raising: the text
    search itself finds row 0. *)
Lemma search_text_fallback_sample :
  exact_text_search sample_dataset (Some "hello")
  = Ok (([(0, sample_row "hello world" "a")], [1.0%float], Some [0]), [])
  /\ search_spec true (sample_store "python") (search_args (Some "hello") None FNone (Some "python"))
     = Raise (UnboundLocalError "query_emb").
Proof. split; vm_compute; reflexivity. Qed.

Lemma search_text_fallback_raises_witness :
  embedding_function (search_args (Some "hello") None FNone (Some "python")) = None
  /\ embedding (search_args (Some "hello") None FNone (Some "python")) = None
  /\ exists e, search_spec true (sample_store "python")
                 (search_args (Some "hello") None FNone (Some "python")) = Raise e.
Proof.
  split; [reflexivity|]. split; [reflexivity|].
  apply (search_text_fallback_raises get_embedding_spec fetch_embeddings_spec
           get_runtime_from_exec_option_spec); reflexivity.
Defined.

Lemma dp_filter_python_keeps_iff_witness :
  0 < rv_len (sample_row "hello world" "a")
  /\ named_tensors_are_dicts (sample_row "hello world" "a")
       [("metadata", [("page", PBool true); ("source", PStr "hello world")])]
  /\ exists r, dp_filter_python (sample_row "hello world" "a")
                 [("metadata", [("page", PBool true); ("source", PStr "hello world")])] = Ok r
       /\ (truthy r = true
           <-> row_satisfies (sample_row "hello world" "a")
                 [("metadata", [("page", PBool true); ("source", PStr "hello world")])]).
Proof.
  assert (Hd : named_tensors_are_dicts (sample_row "hello world" "a")
                 [("metadata", [("page", PBool true); ("source", PStr "hello world")])]).
  { intros t items [H|[]]. inversion H; subst. eexists. reflexivity. }
  split; [simpl; lia|]. split; [exact Hd|].
  apply dp_filter_python_keeps_iff; [simpl; lia | exact Hd].
Defined.

Lemma exact_text_search_result_witness :
  (forall p, In p sample_dataset -> exists c, row_value (snd p) "text" = Ok c)
  /\ exists v scores index warnings,
      exact_text_search sample_dataset (Some "bye") = Ok ((v, scores, index), warnings)
      /\ v = List.filter (fun p => kept (text_pred (Some "bye")) (snd p)) sample_dataset
      /\ List.length scores = List.length v
      /\ Forall (fun s => s = 1.0%float) scores
      /\ (v = [] -> index = None /\ warnings = [no_text_match_warning])
      /\ (v <> [] -> index = Some (sample_indices v) /\ warnings = []).
Proof.
  assert (H : forall p, In p sample_dataset -> exists c, row_value (snd p) "text" = Ok c).
  { intros p [<-|[<-|[]]]; eexists; reflexivity. }
  split; [exact H|]. apply exact_text_search_result. exact H.
Defined.

Lemma get_converted_ids_empty_ids_witness :
  FDict [("metadata", [("page", PInt 1)])] <> FNone
  /\ get_converted_ids sample_dataset (FDict [("metadata", [("page", PInt 1)])]) (Some [])
     = get_filtered_ids sample_dataset (FDict [("metadata", [("page", PInt 1)])])
  /\ get_converted_ids sample_dataset (FDict [("metadata", [("page", PInt 1)])]) (Some [])
     <> Raise (ValueError either_msg).
Proof.
  split; [discriminate|].
  apply get_converted_ids_empty_ids. discriminate.
Defined.

Lemma get_converted_ids_dispatch_witness :
  ids_truthy (Some ["a"]) = true
  /\ filter_truthy (FDict [("metadata", [("page", PInt 1)])]) = true
  /\ get_converted_ids sample_dataset (FDict [("metadata", [("page", PInt 1)])]) (Some ["a"])
     = Raise (ValueError either_msg)
  /\ get_converted_ids sample_dataset (FDict []) (Some ["a"])
     = get_id_indices sample_dataset ["a"]
  /\ get_converted_ids sample_dataset (FDict [("metadata", [("page", PInt 1)])]) None
     = get_filtered_ids sample_dataset (FDict [("metadata", [("page", PInt 1)])]).
Proof.
  split; [reflexivity|]. split; [reflexivity|]. split.
  - apply (proj1 (get_converted_ids_dispatch sample_dataset
                    (FDict [("metadata", [("page", PInt 1)])]) (Some ["a"])));
      reflexivity.
  - split.
    + apply (proj1 (proj2 (get_converted_ids_dispatch sample_dataset (FDict []) (Some ["a"]))));
        [reflexivity | discriminate | reflexivity].
    + apply (proj2 (proj2 (get_converted_ids_dispatch sample_dataset
                             (FDict [("metadata", [("page", PInt 1)])]) None)));
        reflexivity.
Defined.

Lemma search_delegated_accepts_callable_filter_witness :
  In (resolve_exec_option (Some "compute_engine") "python") ["compute_engine"; "tensor_db"]
  /\ search_spec true (sample_store "python")
       (search_args None (Some [1; 2]%Z) keep_nothing (Some "compute_engine"))
     = Ok (VectorSearch [1; 2]%Z "l2" sample_dataset 4%Z None "" "embedding"
             "compute_engine").
Proof.
  split; [left; reflexivity|].
  apply (search_delegated_accepts_callable_filter get_embedding_spec
           fetch_embeddings_spec get_runtime_from_exec_option_spec
           (sample_store "python")
           (search_args None (Some [1; 2]%Z) keep_nothing (Some "compute_engine"))
           "<function keep_nothing at 0x7f2e4c1d9ee0>" (fun _ => Ok (OVal (PBool false)))
           [1; 2]%Z).
  - left; reflexivity.
  - reflexivity.
  - reflexivity.
  - right; discriminate.
  - reflexivity.
Defined.

Lemma search_default_exec_option_ignores_instance_witness :
  vs_exec_option (sample_store "tensor_db") = "tensor_db"
  /\ exists call,
      search_spec true (sample_store "tensor_db")
        (search_args None (Some [1; 2]%Z) FNone
           (exec_option (@search_defaults (list Z) (string -> list Z)))) = Ok call
      /\ is_python_call call = true.
Proof.
  split; [reflexivity|].
  eexists. split; [vm_compute; reflexivity|].
  apply (proj2 (search_default_exec_option_ignores_instance get_embedding_spec
                  fetch_embeddings_spec get_runtime_from_exec_option_spec true
                  (sample_store "tensor_db")
                  (search_args None (Some [1; 2]%Z) FNone
                     (exec_option (@search_defaults (list Z) (string -> list Z))))
                  _ eq_refl)).
  vm_compute. reflexivity.
Defined.

(** * Further properties of the filter module *)

Lemma view_filter_ok (pred : RowView -> Result PyObj) (v v' : View) :
  view_filter pred v = Ok v' ->
  (forall p, In p v -> exists o, pred (snd p) = Ok o)
  /\ v' = List.filter (fun p => kept pred (snd p)) v.
Proof.
  revert v'. induction v as [|[i r] v IH]; intros v' H.
  - inversion H; subst. split; [intros p []|reflexivity].
  - simpl in H. destruct (pred r) as [o|e] eqn:Hp; simpl in H; [|discriminate].
    destruct (view_filter pred v) as [w|e] eqn:Hw; simpl in H; [|discriminate].
    destruct (IH w eq_refl) as [Hall Hw'].
    inversion H; subst. split.
    + intros p [<-|Hin]; [now exists o | now apply Hall].
    + cbn [List.filter snd].
      replace (kept pred r) with (truthy o) by (unfold kept; now rewrite Hp).
      reflexivity.
Qed.

Lemma filter_all_true {A} (f : A -> bool) (l : list A) :
  (forall x, In x l -> f x = true) -> List.filter f l = l.
Proof.
  induction l as [|x l IH]; intros H; [reflexivity|]. simpl.
  rewrite (H x (or_introl eq_refl)), IH; [reflexivity|].
  intros y Hy. apply H. now right.
Qed.

(** X1: with a dict filter, on rows that are one-row views whose named
    tensors hold JSON dicts, [attribute_based_filtering_python] returns
    the rows of the view, in order, that satisfy every key/value
    constraint of every named tensor, and no others. *)
Theorem attribute_based_filtering_python_dict :
  forall (view : View) (d : FilterDict),
    (forall p, In p view -> 0 < rv_len (snd p) /\ named_tensors_are_dicts (snd p) d) ->
    exists v', attribute_based_filtering_python view (FDict d) = Ok v'
      /\ v' = List.filter (fun p => kept (fun x => dp_filter_python x d) (snd p)) view
      /\ (forall p, In p view -> (In p v' <-> row_satisfies (snd p) d)).
Proof.
  intros view d Hrows.
  assert (Hall : forall p, In p view -> exists o, dp_filter_python (snd p) d = Ok o).
  { intros p Hp. destruct (Hrows p Hp) as [Hl Hd].
    destruct (dp_filter_python_truthy_iff _ _ Hl Hd) as [r [Hr _]]. now exists r. }
  simpl. rewrite (view_filter_total _ _ Hall).
  eexists. split; [reflexivity|]. split; [reflexivity|].
  intros p Hp. rewrite filter_In.
  destruct (Hrows p Hp) as [Hl Hd].
  destruct (dp_filter_python_truthy_iff _ _ Hl Hd) as [r [Hr Hiff]].
  unfold kept. rewrite Hr, <- Hiff. tauto.
Qed.

Lemma attribute_based_filtering_python_dict_witness :
  (forall p, In p sample_dataset ->
     0 < rv_len (snd p)
     /\ named_tensors_are_dicts (snd p) [("metadata", [("source", PStr "goodbye")])])
  /\ exists v', attribute_based_filtering_python sample_dataset
                  (FDict [("metadata", [("source", PStr "goodbye")])]) = Ok v'
      /\ v' = List.filter (fun p => kept (fun x => dp_filter_python x
                  [("metadata", [("source", PStr "goodbye")])]) (snd p)) sample_dataset
      /\ (forall p, In p sample_dataset ->
            (In p v' <-> row_satisfies (snd p) [("metadata", [("source", PStr "goodbye")])])).
Proof.
  assert (H : forall p, In p sample_dataset ->
     0 < rv_len (snd p)
     /\ named_tensors_are_dicts (snd p) [("metadata", [("source", PStr "goodbye")])]).
  { intros p Hp. split.
    - destruct Hp as [<-|[<-|[]]]; simpl; lia.
    - intros t items [Ht|[]]. inversion Ht; subst.
      destruct Hp as [<-|[<-|[]]]; eexists; reflexivity. }
  split; [exact H|]. apply attribute_based_filtering_python_dict. exact H.
Defined.

Lemma view_filter_raise_in (pred : RowView -> Result PyObj) (v : View) (e : PyExc) :
  view_filter pred v = Raise e -> exists p, In p v /\ pred (snd p) = Raise e.
Proof.
  induction v as [|[i r] v IH]; simpl; [discriminate|].
  destruct (pred r) as [o|e'] eqn:Hp; simpl.
  - destruct (view_filter pred v) as [v'|e'']; simpl; [discriminate|].
    intro H. destruct (IH H) as [p [Hin Hpe]]. exists p. split; [now right|exact Hpe].
  - intro H. inversion H; subst. exists (i, r). split; [now left|exact Hp].
Qed.

(** X2: with a function filter, [attribute_based_filtering_python]
    returns the rows of the view, in order, for which the function
    returns a truthy value, and only when the function returned on every
    row; otherwise it raises what the function raised on some row. *)
Theorem attribute_based_filtering_python_callable :
  forall (view : View) (name : string) (f : RowView -> Result PyObj),
    (forall v', attribute_based_filtering_python view (FCallable name f) = Ok v' ->
       (forall p, In p view -> exists o, f (snd p) = Ok o)
       /\ v' = List.filter (fun p => kept f (snd p)) view)
    /\ (forall e, attribute_based_filtering_python view (FCallable name f) = Raise e ->
          exists p, In p view /\ f (snd p) = Raise e).
Proof.
  intros view name f. split.
  - intros v' H. exact (view_filter_ok f view v' H).
  - intros e H. exact (view_filter_raise_in f view e H).
Qed.

Lemma attribute_based_filtering_python_callable_witness :
  attribute_based_filtering_python sample_dataset keep_nothing = Ok []
  /\ (forall p, In p sample_dataset -> exists o, (fun _ : RowView => Ok (OVal (PBool false))) (snd p) = Ok o)
  /\ [] = List.filter (fun p => kept (fun _ => Ok (OVal (PBool false))) (snd p)) sample_dataset.
Proof.
  assert (H : attribute_based_filtering_python sample_dataset keep_nothing = Ok [])
    by reflexivity.
  split; [exact H|].
  exact (proj1 (attribute_based_filtering_python_callable sample_dataset
                  "<function keep_nothing at 0x7f2e4c1d9ee0>"
                  (fun _ => Ok (OVal (PBool false)))) [] H).
Defined.

Lemma dp_filter_loop_falsy (x : RowView) (d : FilterDict) (result r : PyObj) :
  truthy result = false -> dp_filter_loop x d result = Ok r -> r = result.
Proof.
  revert result. induction d as [|[t items] d IH]; intros result Hf H.
  - simpl in H. now inversion H.
  - simpl in H. destruct (row_value x t) as [c|e]; simpl in H; [|discriminate].
    rewrite Hf in H. simpl in H. exact (IH result Hf H).
Qed.

(** X3: a row whose [len] is 0 is never kept by [dp_filter_python],
    whatever the filter: [[1] * len(x)] is then the empty list, which is
    falsy and stays the result. *)
Theorem dp_filter_python_empty_row_dropped :
  forall (x : RowView) (d : FilterDict) (r : PyObj),
    rv_len x = 0 -> dp_filter_python x d = Ok r -> truthy r = false.
Proof.
  intros x d r Hlen H. unfold dp_filter_python in H. rewrite Hlen in H.
  rewrite (dp_filter_loop_falsy x d (OList (repeat (PInt 1) 0)) r eq_refl H).
  reflexivity.
Qed.

Lemma dp_filter_python_empty_row_dropped_witness :
  rv_len {| rv_len := 0; rv_cols := [("metadata", CDict [("k", PInt 1)])] |} = 0
  /\ dp_filter_python {| rv_len := 0; rv_cols := [("metadata", CDict [("k", PInt 1)])] |}
       [("metadata", [("k", PInt 1)])] = Ok (OList [])
  /\ truthy (OList []) = false.
Proof.
  assert (H : dp_filter_python {| rv_len := 0; rv_cols := [("metadata", CDict [("k", PInt 1)])] |}
                [("metadata", [("k", PInt 1)])] = Ok (OList [])) by reflexivity.
  split; [reflexivity|]. split; [exact H|].
  exact (dp_filter_python_empty_row_dropped
           {| rv_len := 0; rv_cols := [("metadata", CDict [("k", PInt 1)])] |}
           [("metadata", [("k", PInt 1)])] (OList []) eq_refl H).
Defined.

Lemma concat_sep_length (sep c : string) (cs : list string) :
  String.length c <= String.length (String.concat sep (c :: cs)).
Proof.
  destruct cs as [|c' cs]; simpl; [lia|].
  rewrite !str_length_app. lia.
Qed.

Lemma tql_clauses_nil (d : FilterDict) :
  tql_clauses d = [] <-> Forall (fun p => snd p = []) d.
Proof.
  induction d as [|[t items] d IH]; simpl.
  - split; [constructor|reflexivity].
  - unfold tql_clauses in *. simpl. rewrite Forall_cons_iff, <- IH. simpl.
    destruct items as [|[key v] items]; simpl.
    + tauto.
    + split; [discriminate|]. intros [H _]. discriminate.
Qed.

(** X4: for a dict filter, the fragment of [attribute_based_filtering_tql]
    is empty exactly when no tensor of the filter lists a key/value pair
    (e.g. [{"metadata": {}}]): such a filter constrains nothing. *)
Theorem attribute_based_filtering_tql_empty_fragment :
  forall (view : View) (logger : LoggerArg) (d : FilterDict),
    attribute_based_filtering_tql view logger (FDict d) false = Ok ((view, ""), [])
    <-> Forall (fun p => snd p = []) d.
Proof.
  intros view logger d. rewrite <- tql_clauses_nil.
  unfold attribute_based_filtering_tql. rewrite tql_fragment_join.
  destruct (tql_clauses d) as [|c cs] eqn:Hc; [split; reflexivity|].
  split; [|discriminate].
  intros H.
  assert (Hs : String.concat " and " (c :: cs) = "") by congruence.
  pose proof (concat_sep_length " and " c cs) as Hlen. rewrite Hs in Hlen.
  assert (Hin : In c (tql_clauses d)) by (rewrite Hc; now left).
  unfold tql_clauses in Hin. apply in_flat_map in Hin.
  destruct Hin as [[t items] [_ Hin]]. apply in_map_iff in Hin.
  destruct Hin as [[key v] [<- _]]. unfold tql_clause in Hlen.
  rewrite !str_length_app in Hlen. simpl in Hlen. lia.
Qed.

(** Every row of the view has a text column. *)
Definition rows_have_text (v : View) : Prop :=
  forall p, In p v -> exists s, row_value (snd p) "text" = Ok (CText s).

(** X5: an empty query matches every row ([""] is a substring of every
    text): on a non-empty view of text rows, [exact_text_search] returns
    the whole view, one score [1.0] per row, all its indices and no
    warning. *)
Theorem exact_text_search_empty_query :
  forall (view : View),
    rows_have_text view -> view <> [] ->
    exact_text_search view (Some "")
    = Ok ((view, repeat 1.0%float (List.length view), Some (sample_indices view)), []).
Proof.
  intros view Htext Hne.
  assert (Hall : forall p, In p view -> exists o, text_pred (Some "") (snd p) = Ok o).
  { intros p Hp. destruct (Htext p Hp) as [s Hs].
    unfold text_pred. rewrite Hs. eexists. reflexivity. }
  unfold exact_text_search. rewrite (view_filter_total _ _ Hall). simpl.
  rewrite filter_all_true.
  - destruct view as [|p v]; [contradiction|reflexivity].
  - intros p Hp. destruct (Htext p Hp) as [s Hs].
    unfold kept, text_pred. rewrite Hs. simpl.
    destruct s; reflexivity.
Qed.

Lemma exact_text_search_empty_query_witness :
  rows_have_text sample_dataset /\ sample_dataset <> []
  /\ exact_text_search sample_dataset (Some "")
     = Ok ((sample_dataset, [1.0%float; 1.0%float], Some [0; 1]), []).
Proof.
  assert (H : rows_have_text sample_dataset)
    by (intros p [<-|[<-|[]]]; eexists; reflexivity).
  split; [exact H|]. split; [discriminate|].
  exact (exact_text_search_empty_query sample_dataset H ltac:(discriminate)).
Defined.

(** X6: [search] hands its [prompt] to [exact_text_search], which may be
    [None]: on a non-empty view of text rows this raises [TypeError]
    (["None in str"]), while on an empty view any query gives the
    no-match warning and no index instead of an error. *)
Theorem exact_text_search_none_query :
  (forall (view : View),
      rows_have_text view -> view <> [] ->
      exact_text_search view None
      = Raise (TypeError "'in <string>' requires string as left operand, not NoneType"))
  /\ (forall (q : option string),
      exact_text_search [] q = Ok (([], [], None), [no_text_match_warning])).
Proof.
  split.
  - intros view Htext Hne. destruct view as [|[i r] v]; [contradiction|].
    destruct (Htext (i, r) (or_introl eq_refl)) as [s Hs]. simpl in Hs.
    unfold exact_text_search. simpl. unfold text_pred. rewrite Hs. reflexivity.
  - intros q. reflexivity.
Qed.

Lemma exact_text_search_none_query_witness :
  rows_have_text sample_dataset /\ sample_dataset <> []
  /\ exact_text_search sample_dataset None
     = Raise (TypeError "'in <string>' requires string as left operand, not NoneType").
Proof.
  assert (H : rows_have_text sample_dataset)
    by (intros p [<-|[<-|[]]]; eexists; reflexivity).
  split; [exact H|]. split; [discriminate|].
  exact (proj1 exact_text_search_none_query sample_dataset H ltac:(discriminate)).
Defined.

(** ** get_id_indices *)

Lemma kept_id_pred (ids : list string) (r : RowView) (s : string) :
  row_value r "ids" = Ok (CText s) ->
  id_pred ids r = Ok (OVal (PBool (existsb (String.eqb s) ids)))
  /\ kept (id_pred ids) r = existsb (String.eqb (row_id r)) ids.
Proof.
  intros Hs. unfold kept, id_pred, row_id. rewrite Hs. split; reflexivity.
Qed.

Lemma ids_of_matched (ids : list string) (ds : View) :
  rows_have_ids ds ->
  ids_of (List.filter (fun p => kept (id_pred ids) (snd p)) ds)
  = List.filter (fun s => existsb (String.eqb s) ids) (ids_of ds).
Proof.
  induction ds as [|[i r] ds IH]; intros Hds; [reflexivity|].
  destruct (Hds (i, r) (or_introl eq_refl)) as [s Hs]. simpl in Hs.
  assert (Hds' : rows_have_ids ds) by (intros p Hp; apply Hds; now right).
  simpl. rewrite (proj2 (kept_id_pred ids r s Hs)).
  destruct (existsb (String.eqb (row_id r)) ids); simpl; now rewrite IH.
Qed.

Lemma get_id_indices_eval (ds : View) (ids : list string) :
  rows_have_ids ds ->
  let v := List.filter (fun p => kept (id_pred ids) (snd p)) ds in
  get_id_indices ds ids
  = if negb (Nat.eqb (List.length (sample_indices v)) (List.length ids))
    then Raise (ValueError ("The following ids: "
                 ++ get_ids_that_does_not_exist (map PStr ids)
                      (map (fun n => PInt (Z.of_nat n)) (sample_indices v))
                 ++ " does not exist in the dataset"))
    else Ok (sample_indices v).
Proof.
  intros Hds v. unfold get_id_indices.
  assert (Hall : forall p, In p ds -> exists o, id_pred ids (snd p) = Ok o).
  { intros p Hp. destruct (Hds p Hp) as [s Hs].
    eexists. exact (proj1 (kept_id_pred ids _ s Hs)). }
  rewrite (view_filter_total _ _ Hall). reflexivity.
Qed.

Lemma get_id_indices_ok_iff_aux :
  forall (ds : View) (ids : list string),
    rows_have_ids ds -> NoDup (ids_of ds) ->
    ((exists l, get_id_indices ds ids = Ok l)
     <-> NoDup ids /\ incl ids (ids_of ds))
    /\ (forall l, get_id_indices ds ids = Ok l ->
        l = sample_indices
              (List.filter (fun p => existsb (String.eqb (row_id (snd p))) ids) ds)).
Proof.
  intros ds ids Hds Hnd.
  set (v := List.filter (fun p => kept (id_pred ids) (snd p)) ds).
  set (m := List.filter (fun s => existsb (String.eqb s) ids) (ids_of ds)).
  assert (Hv : v = List.filter (fun p => existsb (String.eqb (row_id (snd p))) ids) ds).
  { unfold v. apply filter_ext_in. intros [i r] Hin.
    destruct (Hds (i, r) Hin) as [s Hs]. exact (proj2 (kept_id_pred ids r s Hs)). }
  assert (Hlen : List.length (sample_indices v) = List.length m).
  { unfold m. rewrite <- (ids_of_matched ids ds Hds). fold v.
    unfold sample_indices, ids_of. now rewrite !length_map. }
  assert (Hmnd : NoDup m) by (apply NoDup_filter; exact Hnd).
  assert (Hmincl : incl m ids).
  { intros s Hs. unfold m in Hs. apply filter_In in Hs as [_ Hs].
    apply existsb_exists in Hs as [s' [Hin Heq]].
    apply String.eqb_eq in Heq. now subst. }
  rewrite (get_id_indices_eval ds ids Hds). fold v. rewrite Hlen.
  split.
  - split.
    + intros [l Hl].
      destruct (Nat.eqb (List.length m) (List.length ids)) eqn:He;
        simpl in Hl; [|discriminate].
      apply Nat.eqb_eq in He.
      split.
      * apply (NoDup_incl_NoDup Hmnd); [lia | exact Hmincl].
      * intros s Hs.
        assert (Hsm : In s m)
          by (apply (@NoDup_length_incl _ m ids Hmnd); [lia | exact Hmincl | exact Hs]).
        unfold m in Hsm. apply filter_In in Hsm. tauto.
    + intros [Hidnd Hincl].
      assert (Hidm : incl ids m).
      { intros s Hs. unfold m. apply filter_In. split; [now apply Hincl|].
        apply existsb_exists. exists s. split; [exact Hs|apply String.eqb_refl]. }
      assert (H1 := NoDup_incl_length Hidnd Hidm).
      assert (H2 := NoDup_incl_length Hmnd Hmincl).
      replace (Nat.eqb (List.length m) (List.length ids)) with true
        by (symmetry; apply Nat.eqb_eq; lia).
      eexists. reflexivity.
  - intros l Hl.
    destruct (Nat.eqb (List.length m) (List.length ids)); simpl in Hl; [|discriminate].
    inversion Hl. now rewrite Hv.
Qed.

(** X7: on a dataset whose rows carry distinct text ids,
    [get_id_indices] succeeds exactly when the requested ids are
    distinct and all present; it then returns the indices, in dataset
    order, of the rows whose id is requested.  A repeated request of a
    present id fails. *)
Theorem get_id_indices_ok_iff :
  forall (ds : View) (ids : list string),
    rows_have_ids ds -> NoDup (ids_of ds) ->
    ((exists l, get_id_indices ds ids = Ok l)
     <-> NoDup ids /\ incl ids (ids_of ds))
    /\ (forall l, get_id_indices ds ids = Ok l ->
        l = sample_indices
              (List.filter (fun p => existsb (String.eqb (row_id (snd p))) ids) ds)).
Proof. exact get_id_indices_ok_iff_aux. Qed.

Lemma get_id_indices_ok_iff_witness :
  rows_have_ids sample_dataset /\ NoDup (ids_of sample_dataset)
  /\ (NoDup ["c"; "a"] /\ incl ["c"; "a"] (ids_of sample_dataset))
  /\ exists l, get_id_indices sample_dataset ["c"; "a"] = Ok l.
Proof.
  assert (H1 : rows_have_ids sample_dataset)
    by (intros p [<-|[<-|[]]]; eexists; reflexivity).
  assert (H2 : NoDup (ids_of sample_dataset)).
  { simpl. constructor; [intros [H|[]]; discriminate|].
    constructor; [intros []|constructor]. }
  assert (H3 : NoDup ["c"; "a"] /\ incl ["c"; "a"] (ids_of sample_dataset)).
  { split.
    - constructor; [intros [H|[]]; discriminate|].
      constructor; [intros []|constructor].
    - intros s [<-|[<-|[]]]; simpl; auto. }
  split; [exact H1|]. split; [exact H2|]. split; [exact H3|].
  apply (proj1 (get_id_indices_ok_iff sample_dataset ["c"; "a"] H1 H2)). exact H3.
Defined.

(** X8: whenever [get_id_indices] raises on a count mismatch (every row
    has a text id), its message lists every requested id, in request
    order, whether present in the dataset or not. *)
Theorem get_id_indices_error_lists_all :
  forall (ds : View) (ids : list string) (msg : string),
    rows_have_ids ds ->
    get_id_indices ds ids = Raise (ValueError msg) ->
    msg = "The following ids: "
          ++ drop_last 2 (String.concat "" (map (fun id => "`" ++ id ++ "`, ") ids))
          ++ " does not exist in the dataset".
Proof.
  intros ds ids msg Hds H. rewrite (get_id_indices_eval ds ids Hds) in H.
  destruct (negb _); [|discriminate].
  inversion H. now rewrite missing_ids_lists_all.
Qed.

Lemma get_id_indices_error_lists_all_witness :
  rows_have_ids sample_dataset
  /\ get_id_indices sample_dataset ["a"; "a"]
     = Raise (ValueError "The following ids: `a`, `a` does not exist in the dataset")
  /\ "The following ids: `a`, `a` does not exist in the dataset"
     = "The following ids: "
       ++ drop_last 2 (String.concat "" (map (fun id => "`" ++ id ++ "`, ") ["a"; "a"]))
       ++ " does not exist in the dataset".
Proof.
  assert (H1 : rows_have_ids sample_dataset)
    by (intros p [<-|[<-|[]]]; eexists; reflexivity).
  assert (H2 : get_id_indices sample_dataset ["a"; "a"]
     = Raise (ValueError "The following ids: `a`, `a` does not exist in the dataset"))
    by (vm_compute; reflexivity).
  split; [exact H1|]. split; [exact H2|].
  exact (get_id_indices_error_lists_all _ _ _ H1 H2).
Defined.

(** ** get_filtered_ids *)

Lemma view_filter_dict_total (ds : View) (d : FilterDict) :
  (forall p, In p ds -> 0 < rv_len (snd p) /\ named_tensors_are_dicts (snd p) d) ->
  view_filter (fun x => dp_filter_python x d) ds
  = Ok (List.filter (fun p => kept (fun x => dp_filter_python x d) (snd p)) ds)
  /\ (forall p, In p ds ->
      (kept (fun x => dp_filter_python x d) (snd p) = true <-> row_satisfies (snd p) d)).
Proof.
  intros Hrows. split.
  - apply view_filter_total. intros p Hp. destruct (Hrows p Hp) as [Hl Hd].
    destruct (dp_filter_python_truthy_iff _ _ Hl Hd) as [r [Hr _]]. now exists r.
  - intros p Hp. destruct (Hrows p Hp) as [Hl Hd].
    destruct (dp_filter_python_truthy_iff _ _ Hl Hd) as [r [Hr Hiff]].
    unfold kept. now rewrite Hr.
Qed.

Lemma sample_dataset_goodbye_rows :
  forall p, In p sample_dataset ->
    0 < rv_len (snd p)
    /\ named_tensors_are_dicts (snd p) goodbye_filter.
Proof.
  intros p Hp. split.
  - destruct Hp as [<-|[<-|[]]]; simpl; lia.
  - intros t items [Ht|[]]. inversion Ht; subst.
    destruct Hp as [<-|[<-|[]]]; eexists; reflexivity.
Qed.

(** X9: with a dict filter, on rows that are one-row views whose named
    tensors hold JSON dicts, [get_filtered_ids] returns the indices, in
    dataset order, of the rows that satisfy the filter; when no row does,
    it raises the not-found [ValueError] naming the filter's repr. *)
Theorem get_filtered_ids_dict :
  forall (ds : View) (d : FilterDict),
    (forall p, In p ds -> 0 < rv_len (snd p) /\ named_tensors_are_dicts (snd p) d) ->
    let v := List.filter (fun p => kept (fun x => dp_filter_python x d) (snd p)) ds in
    (forall p, In p ds -> (In p v <-> row_satisfies (snd p) d))
    /\ (v = [] -> get_filtered_ids ds (FDict d)
                  = Raise (ValueError (filter_repr (FDict d) ++ " does not exist in the dataset.")))
    /\ (v <> [] -> get_filtered_ids ds (FDict d) = Ok (sample_indices v)).
Proof.
  intros ds d Hrows v.
  destruct (view_filter_dict_total ds d Hrows) as [Hv Hk].
  assert (Hg : get_filtered_ids ds (FDict d)
               = if Nat.eqb (List.length (sample_indices v)) 0
                 then Raise (ValueError (filter_repr (FDict d) ++ " does not exist in the dataset."))
                 else Ok (sample_indices v)).
  { unfold get_filtered_ids.
    change (dp_filter_partial (FDict d)) with (fun x => dp_filter_python x d).
    rewrite Hv. reflexivity. }
  assert (Hin : forall p, In p ds -> (In p v <-> row_satisfies (snd p) d)).
  { intros p Hp. unfold v. rewrite filter_In, <- (Hk p Hp). tauto. }
  clearbody v.
  split; [exact Hin|]. split.
  - intros ->. exact Hg.
  - intros Hne. rewrite Hg. destruct v; [contradiction|reflexivity].
Qed.

Lemma get_filtered_ids_dict_witness :
  (forall p, In p sample_dataset ->
     0 < rv_len (snd p)
     /\ named_tensors_are_dicts (snd p) goodbye_filter)
  /\ let v := List.filter (fun p => kept (fun x => dp_filter_python x
                 goodbye_filter) (snd p)) sample_dataset in
     (forall p, In p sample_dataset ->
        (In p v <-> row_satisfies (snd p) goodbye_filter))
     /\ (v = [] -> get_filtered_ids sample_dataset (FDict goodbye_filter)
                   = Raise (ValueError (filter_repr (FDict goodbye_filter)
                                        ++ " does not exist in the dataset.")))
     /\ (v <> [] -> get_filtered_ids sample_dataset (FDict goodbye_filter)
                    = Ok (sample_indices v)).
Proof.
  split; [exact sample_dataset_goodbye_rows|].
  exact (get_filtered_ids_dict _ _ sample_dataset_goodbye_rows).
Defined.

(** X10: a filter that is not a dict ([None] or a function) never
    selects rows in [get_filtered_ids]: on a non-empty dataset the first
    row raises [AttributeError] from [filter.keys()], and on an empty
    dataset the not-found [ValueError] names the filter. *)
Theorem get_filtered_ids_not_dict :
  forall (ds : View) (f : FilterArg),
    (forall d, f <> FDict d) ->
    (ds = [] -> get_filtered_ids ds f
                = Raise (ValueError (filter_repr f ++ " does not exist in the dataset.")))
    /\ (ds <> [] -> exists msg, get_filtered_ids ds f = Raise (AttributeError msg)).
Proof.
  intros ds f Hf.
  destruct f as [|d|name g]; [| now destruct (Hf d) |];
    (split; [intros ->; reflexivity|]);
    intros Hne; (destruct ds as [|[i r] ds]; [contradiction|]);
    eexists; reflexivity.
Qed.

Lemma get_filtered_ids_not_dict_witness :
  (forall d, FNone <> FDict d)
  /\ (sample_dataset = [] -> get_filtered_ids sample_dataset FNone
        = Raise (ValueError (filter_repr FNone ++ " does not exist in the dataset.")))
  /\ (sample_dataset <> [] -> exists msg,
        get_filtered_ids sample_dataset FNone = Raise (AttributeError msg)).
Proof.
  assert (H : forall d, FNone <> FDict d) by discriminate.
  split; [exact H|]. exact (get_filtered_ids_not_dict sample_dataset FNone H).
Defined.

(** * Properties of delete *)

Lemma get_converted_ids_no_ids (ds : View) (f : FilterArg) (ids : option (list string)) :
  ids_truthy ids = false -> get_converted_ids ds f ids = get_filtered_ids ds f.
Proof.
  intros Hi. unfold get_converted_ids. rewrite Hi. simpl.
  destruct ids as [[|x l]|]; [reflexivity| simpl in Hi; discriminate |reflexivity].
Qed.

Lemma filter_length_split {A} (f : A -> bool) (l : list A) :
  List.length (List.filter f l) + List.length (List.filter (fun x => negb (f x)) l)
  = List.length l.
Proof.
  induction l as [|x l IH]; [reflexivity|]. simpl.
  destruct (f x); simpl; lia.
Qed.

Lemma NoDup_map_inj {A B} (f : A -> B) (l : list A) (x y : A) :
  NoDup (map f l) -> In x l -> In y l -> f x = f y -> x = y.
Proof.
  induction l as [|z l IH]; intros Hnd Hx Hy Hf; [destruct Hx|].
  simpl in Hnd. inversion Hnd as [|? ? Hz Hnd']; subst.
  destruct Hx as [<-|Hx], Hy as [<-|Hy]; [reflexivity| | |now apply IH].
  - exfalso. apply Hz. rewrite Hf. now apply in_map.
  - exfalso. apply Hz. rewrite <- Hf. now apply in_map.
Qed.

Lemma length_renumber_from (n : nat) (v : View) :
  List.length (renumber_from n v) = List.length v.
Proof.
  revert n. induction v as [|[i r] v IH]; intros n; [reflexivity|].
  simpl. now rewrite IH.
Qed.

Section DeleteProperties.

Context {EmbFn : Type}.
Variable delete_all_samples_if_specified :
  View -> option bool -> Result (View * bool).
Variable delete_and_commit : View -> list nat -> Result View.

Lemma delete_by_ids_aux :
  forall (self : VectorStore EmbFn) (ids : list string) f delete_all ds,
    delete_all_samples_if_specified (vs_dataset self) delete_all = Ok (ds, false) ->
    rows_have_ids ds -> NoDup (ids_of ds) ->
    ids <> [] -> NoDup ids -> incl ids (ids_of ds) -> filter_truthy f = false ->
    delete delete_all_samples_if_specified delete_and_commit self (Some ids) f delete_all
    = match delete_and_commit ds
              (sample_indices
                 (List.filter (fun p => existsb (String.eqb (row_id (snd p))) ids) ds)) with
      | Raise e => (set_dataset self ds, Raise e)
      | Ok ds' => (set_dataset self ds', Ok true)
      end.
Proof.
  intros self ids f delete_all ds Hd Hrows Hnd Hne Hidnd Hincl Hf.
  destruct (get_id_indices_ok_iff_aux ds ids Hrows Hnd) as [Hiff Hl].
  destruct (proj2 Hiff (conj Hidnd Hincl)) as [l Hok].
  rewrite <- (Hl l Hok).
  assert (Hc : get_converted_ids ds f (Some ids) = Ok l).
  { unfold get_converted_ids. rewrite Hf, andb_false_r.
    destruct ids; [contradiction | exact Hok]. }
  unfold delete. rewrite Hd. cbn beta iota zeta. rewrite Hc. reflexivity.
Qed.

(** X11: when the dataset is not dropped and both a non-empty [ids]
    list and a truthy filter are given, [delete] raises the
    mutual-exclusion error without reaching [delete_and_commit]; the
    store keeps the dataset [delete_all_samples_if_specified] returned. *)
Theorem delete_ids_and_filter_rejected :
  forall (self : VectorStore EmbFn) ids f delete_all ds,
    delete_all_samples_if_specified (vs_dataset self) delete_all = Ok (ds, false) ->
    ids_truthy ids = true -> filter_truthy f = true ->
    delete delete_all_samples_if_specified delete_and_commit self ids f delete_all
    = (set_dataset self ds, Raise (ValueError either_msg)).
Proof.
  intros self ids f delete_all ds Hd Hi Hf. unfold delete. rewrite Hd.
  cbn beta iota zeta. unfold get_converted_ids. now rewrite Hi, Hf.
Qed.

(** X12: when the dataset is not dropped, [delete] with neither a
    non-empty [ids] list nor a dict filter (the defaults [ids=None,
    filter=None] included) always raises and deletes nothing:
    [delete_and_commit] is never reached. *)
Theorem delete_without_selection_raises :
  forall (self : VectorStore EmbFn) ids f delete_all ds,
    delete_all_samples_if_specified (vs_dataset self) delete_all = Ok (ds, false) ->
    ids_truthy ids = false -> (forall d, f <> FDict d) ->
    exists e, delete delete_all_samples_if_specified delete_and_commit self ids f delete_all
              = (set_dataset self ds, Raise e).
Proof.
  intros self ids f delete_all ds Hd Hi Hf. unfold delete. rewrite Hd.
  cbn beta iota zeta. rewrite (get_converted_ids_no_ids ds f ids Hi).
  destruct f as [|d|name g]; [| now destruct (Hf d) |];
    destruct ds as [|[i r] ds]; eexists; reflexivity.
Qed.

(** X13: when the dataset is not dropped, the filter is falsy and the
    rows carry distinct text ids, [delete] with distinct ids that are all
    present passes to [delete_and_commit] exactly the indices, in
    dataset order, of the rows holding those ids, and returns [True]
    with the committed dataset once that call succeeds. *)
Theorem delete_by_ids :
  forall (self : VectorStore EmbFn) (ids : list string) f delete_all ds,
    delete_all_samples_if_specified (vs_dataset self) delete_all = Ok (ds, false) ->
    rows_have_ids ds -> NoDup (ids_of ds) ->
    ids <> [] -> NoDup ids -> incl ids (ids_of ds) -> filter_truthy f = false ->
    delete delete_all_samples_if_specified delete_and_commit self (Some ids) f delete_all
    = match delete_and_commit ds
              (sample_indices
                 (List.filter (fun p => existsb (String.eqb (row_id (snd p))) ids) ds)) with
      | Raise e => (set_dataset self ds, Raise e)
      | Ok ds' => (set_dataset self ds', Ok true)
      end.
Proof. exact delete_by_ids_aux. Qed.

(** X14: [delete] never returns [False]: every call either raises or
    returns [True]. *)
Theorem delete_never_false :
  forall (self : VectorStore EmbFn) ids f delete_all,
    snd (delete delete_all_samples_if_specified delete_and_commit self ids f delete_all)
    <> Ok false.
Proof.
  intros self ids f delete_all. unfold delete.
  destruct (delete_all_samples_if_specified _ _) as [[ds [|]]|e]; simpl;
    [discriminate| |discriminate].
  destruct (get_converted_ids _ _ _) as [idx|e]; simpl; [|discriminate].
  destruct (delete_and_commit _ _); simpl; discriminate.
Qed.

(** X15: once [delete_all_samples_if_specified] reports the dataset
    dropped, [delete] returns [True] without resolving [ids] or
    [filter]: no combination of them raises, not even both given. *)
Theorem delete_all_ignores_selection :
  forall (self : VectorStore EmbFn) ids f delete_all ds,
    delete_all_samples_if_specified (vs_dataset self) delete_all = Ok (ds, true) ->
    delete delete_all_samples_if_specified delete_and_commit self ids f delete_all
    = (set_dataset self ds, Ok true).
Proof.
  intros self ids f delete_all ds Hd. unfold delete. now rewrite Hd.
Qed.

End DeleteProperties.

(** X16: with the dataset helpers of the spec, deleting distinct ids
    that are all present, in a dataset whose rows carry distinct text ids
    and distinct indices, removes exactly the rows holding those ids: the
    store keeps the other rows in order, indexed again from 0, and [len]
    drops by the number of ids. *)
Theorem delete_by_ids_spec :
  forall {EmbFn} (self : VectorStore EmbFn) (ids : list string) f,
    rows_have_ids (vs_dataset self) -> NoDup (ids_of (vs_dataset self)) ->
    NoDup (sample_indices (vs_dataset self)) ->
    ids <> [] -> NoDup ids -> incl ids (ids_of (vs_dataset self)) ->
    filter_truthy f = false ->
    let r := delete delete_all_samples_if_specified_spec delete_and_commit_spec
               self (Some ids) f None in
    snd r = Ok true
    /\ vs_dataset (fst r)
       = renumber_from 0
           (List.filter (fun p => negb (existsb (String.eqb (row_id (snd p))) ids))
              (vs_dataset self))
    /\ vs_len (fst r) + List.length ids = vs_len self.
Proof.
  intros EmbFn self ids f Hrows Hnd Hind Hne Hidnd Hincl Hf r.
  set (ds := vs_dataset self) in *.
  set (sel := fun p : nat * RowView => existsb (String.eqb (row_id (snd p))) ids).
  assert (Hr : r = (set_dataset self
                      (renumber_from 0
                        (List.filter (fun p => negb (existsb (Nat.eqb (fst p))
                                      (sample_indices (List.filter sel ds)))) ds)), Ok true)).
  { unfold r. rewrite (delete_by_ids_aux delete_all_samples_if_specified_spec
                         delete_and_commit_spec self ids f None ds eq_refl
                         Hrows Hnd Hne Hidnd Hincl Hf).
    reflexivity. }
  assert (Hsel : forall p, In p ds ->
            existsb (Nat.eqb (fst p)) (sample_indices (List.filter sel ds)) = sel p).
  { intros p Hp. apply Bool.eq_iff_eq_true. rewrite existsb_exists. split.
    - intros [n [Hn Heq]]. apply Nat.eqb_eq in Heq.
      unfold sample_indices in Hn. apply in_map_iff in Hn as [q [Hq Hqin]].
      apply filter_In in Hqin as [Hqds Hsq].
      assert (p = q) as <- by (apply (NoDup_map_inj fst ds); auto; congruence).
      exact Hsq.
    - intros Hs. exists (fst p). split; [|apply Nat.eqb_refl].
      unfold sample_indices. apply in_map. now apply filter_In. }
  assert (Hkeep : List.filter (fun p => negb (existsb (Nat.eqb (fst p))
                     (sample_indices (List.filter sel ds)))) ds
                  = List.filter (fun p => negb (sel p)) ds).
  { apply filter_ext_in. intros p Hp. now rewrite Hsel. }
  assert (Hcount : List.length (List.filter sel ds) = List.length ids).
  { destruct (get_id_indices_ok_iff_aux ds ids Hrows Hnd) as [Hiff Hl].
    destruct (proj2 Hiff (conj Hidnd Hincl)) as [l Hok].
    pose proof (Hl l Hok) as Hleq.
    rewrite (get_id_indices_eval ds ids Hrows) in Hok.
    destruct (Nat.eqb _ _) eqn:He; simpl in Hok; [|discriminate].
    apply Nat.eqb_eq in He. injection Hok as Hl'. subst l.
    rewrite Hleq in He. unfold sample_indices in He. now rewrite length_map in He. }
  rewrite Hr. simpl. rewrite Hkeep. split; [reflexivity|]. split; [reflexivity|].
  unfold vs_len. simpl. rewrite length_renumber_from, <- Hcount. fold ds.
  pose proof (filter_length_split sel ds). lia.
Qed.

Lemma delete_by_ids_spec_witness :
  rows_have_ids (vs_dataset (sample_store "python"))
  /\ NoDup (ids_of (vs_dataset (sample_store "python")))
  /\ NoDup (sample_indices (vs_dataset (sample_store "python")))
  /\ ["a"] <> [] /\ NoDup ["a"] /\ incl ["a"] (ids_of (vs_dataset (sample_store "python")))
  /\ filter_truthy FNone = false
  /\ let r := delete delete_all_samples_if_specified_spec delete_and_commit_spec
                (sample_store "python") (Some ["a"]) FNone None in
     snd r = Ok true
     /\ vs_dataset (fst r)
        = renumber_from 0
            (List.filter (fun p => negb (existsb (String.eqb (row_id (snd p))) ["a"]))
               (vs_dataset (sample_store "python")))
     /\ vs_len (fst r) + List.length ["a"] = vs_len (sample_store "python").
Proof.
  assert (H1 : rows_have_ids (vs_dataset (sample_store "python")))
    by (intros p [<-|[<-|[]]]; eexists; reflexivity).
  assert (H2 : NoDup (ids_of (vs_dataset (sample_store "python")))).
  { simpl. constructor; [intros [H|[]]; discriminate|].
    constructor; [intros []|constructor]. }
  assert (H3 : NoDup (sample_indices (vs_dataset (sample_store "python")))).
  { simpl. constructor; [intros [H|[]]; discriminate|].
    constructor; [intros []|constructor]. }
  assert (H4 : ["a"] <> []) by discriminate.
  assert (H5 : NoDup ["a"]) by (constructor; [intros []|constructor]).
  assert (H6 : incl ["a"] (ids_of (vs_dataset (sample_store "python"))))
    by (intros s [<-|[]]; simpl; auto).
  assert (H7 : filter_truthy FNone = false) by reflexivity.
  repeat (split; [assumption|]).
  exact (delete_by_ids_spec (sample_store "python") ["a"] FNone H1 H2 H3 H4 H5 H6 H7).
Defined.

(** * Further properties of search *)

Section SearchPaths.

Context {Emb EmbFn Embs Runtime : Type}.
Variable get_embedding : option Emb -> option string -> option EmbFn -> Result Emb.
Variable fetch_embeddings : string -> View -> string -> Result Embs.
Variable get_runtime_from_exec_option : string -> Runtime.

(** X17: on the local path every TQL query is refused, the empty string
    included ([query is not None]): once the query embedding is
    computed, [search] raises [NotImplementedError] before filtering the
    dataset, whatever the filter. *)
Theorem search_python_query_rejected :
  forall (indra_installed : bool) (self : VectorStore EmbFn)
         (a : SearchArgs Emb EmbFn) (e : Emb),
    resolve_exec_option (exec_option a) (vs_exec_option self) = "python" ->
    query a <> None ->
    (embedding_function a <> None \/ embedding a <> None) ->
    get_embedding (embedding a) (prompt a) (embedding_function a) = Ok e ->
    @search Emb EmbFn Embs Runtime get_embedding fetch_embeddings
      get_runtime_from_exec_option indra_installed self a
    = Raise (NotImplementedError
               "User-specified TQL queries are not support for exec_option=python ").
Proof.
  intros indra_installed self a e Heo Hquery Hemb Hq.
  unfold search. rewrite Heo.
  destruct (query a) as [qs|]; [|contradiction].
  destruct (embedding_function a) as [ef|] eqn:Hef;
    destruct (embedding a) as [em|] eqn:Hem;
    try (destruct Hemb as [Hemb|Hemb]; contradiction Hemb; reflexivity);
    rewrite Hq; reflexivity.
Qed.

(** X18: on a delegated path a truthy query together with a truthy
    filter is refused, whatever the filter (a function filter gets this
    error, not the one for functions) and whether or not the native
    engine is installed, once the step that precedes the checks has
    succeeded: the exact text search when neither an embedding nor an
    embedding function is given, [get_embedding] otherwise. *)
Theorem search_delegated_query_and_filter_rejected :
  forall (indra_installed : bool) (self : VectorStore EmbFn)
         (a : SearchArgs Emb EmbFn),
    In (resolve_exec_option (exec_option a) (vs_exec_option self))
       ["compute_engine"; "tensor_db"] ->
    str_opt_truthy (query a) = true -> filter_truthy (filter a) = true ->
    match embedding_function a, embedding a with
    | None, None => exists r, exact_text_search (vs_dataset self) (prompt a) = Ok r
    | _, _ => exists e, get_embedding (embedding a) (prompt a) (embedding_function a) = Ok e
    end ->
    @search Emb EmbFn Embs Runtime get_embedding fetch_embeddings
      get_runtime_from_exec_option indra_installed self a
    = Raise (NotImplementedError
               "query and filter parameters cannot be specified simultaneously.").
Proof.
  intros indra_installed self a Hin Hqt Hft Hstep.
  assert (Hpt : py_type_eqb (filter_type (filter a)) TTypingCallable = false)
    by (destruct (filter a); reflexivity).
  unfold search. rewrite Hpt, Hqt, Hft. revert Hstep.
  destruct (embedding_function a) as [ef|]; destruct (embedding a) as [em|];
    intros [x Hx]; rewrite Hx;
    destruct Hin as [Heo|[Heo|[]]]; rewrite <- Heo; reflexivity.
Qed.

(** X19: a delegated search that returns always ranks the whole dataset
    with an empty TQL filter: the filter argument is never forwarded.
    The query embedding is the one [get_embedding] computed (the text
    fallback never returns), the runtime is that of the effective
    option, and query and filter were not both truthy. *)
Theorem search_delegated_ok :
  forall (indra_installed : bool) (self : VectorStore EmbFn)
         (a : SearchArgs Emb EmbFn) q dm v kk qs tf et (rt : Runtime),
    @search Emb EmbFn Embs Runtime get_embedding fetch_embeddings
      get_runtime_from_exec_option indra_installed self a
    = Ok (VectorSearch q dm v kk qs tf et rt) ->
    v = vs_dataset self /\ tf = "" /\ qs = query a
    /\ get_embedding (embedding a) (prompt a) (embedding_function a) = Ok q
    /\ dm = lower (distance_metric a) /\ kk = k a /\ et = embedding_tensor a
    /\ rt = get_runtime_from_exec_option
              (resolve_exec_option (exec_option a) (vs_exec_option self))
    /\ str_opt_truthy (query a) && filter_truthy (filter a) = false.
Proof.
  intros indra_installed self a q dm v kk qs tf et rt. unfold search.
  set (eo := resolve_exec_option (exec_option a) (vs_exec_option self)).
  destruct (negb _); [discriminate|].
  destruct (embedding_function a) as [ef|];
    destruct (embedding a) as [em|];
    first [ destruct (exact_text_search _ _); simpl; [|discriminate]
          | destruct (get_embedding _ _ _) as [e|err] eqn:Hg; simpl; [|discriminate] ];
    (destruct (String.eqb eo "python");
     [ destruct (query a); [discriminate|];
       destruct (attribute_based_filtering_python _ _); simpl; [|discriminate];
       destruct (fetch_embeddings _ _ _); simpl; discriminate
     | destruct (py_type_eqb _ _); [discriminate|];
       destruct (str_opt_truthy (query a) && filter_truthy (filter a)) eqn:Hqf;
         [discriminate|];
       destruct (check_indra_installation _ _); simpl; [|discriminate];
       intro H; inversion H; subst; repeat split; assumption ]).
Qed.

(** X20: a local search that returns ranks exactly the view that
    [attribute_based_filtering_python] selects from the dataset, with
    the embeddings fetched for that view under the "python" option and
    the embedding [get_embedding] computed; no query was given. *)
Theorem search_python_ok :
  forall (indra_installed : bool) (self : VectorStore EmbFn)
         (a : SearchArgs Emb EmbFn) v q (embs : Embs) dm kk,
    @search Emb EmbFn Embs Runtime get_embedding fetch_embeddings
      get_runtime_from_exec_option indra_installed self a
    = Ok (PythonVectorSearch v q embs dm kk) ->
    resolve_exec_option (exec_option a) (vs_exec_option self) = "python"
    /\ query a = None
    /\ attribute_based_filtering_python (vs_dataset self) (filter a) = Ok v
    /\ fetch_embeddings "python" v (embedding_tensor a) = Ok embs
    /\ get_embedding (embedding a) (prompt a) (embedding_function a) = Ok q
    /\ dm = lower (distance_metric a) /\ kk = k a.
Proof.
  intros indra_installed self a v q embs dm kk. unfold search.
  set (eo := resolve_exec_option (exec_option a) (vs_exec_option self)).
  destruct (negb _); [discriminate|].
  destruct (embedding_function a) as [ef|];
    destruct (embedding a) as [em|];
    first [ destruct (exact_text_search _ _); simpl; [|discriminate]
          | destruct (get_embedding _ _ _) as [e|err] eqn:Hg; simpl; [|discriminate] ];
    (destruct (String.eqb eo "python") eqn:Hpy;
     [ apply String.eqb_eq in Hpy; rewrite Hpy;
       destruct (query a) eqn:Hqa; [discriminate|];
       destruct (attribute_based_filtering_python _ _) eqn:Hf; simpl; [|discriminate];
       destruct (fetch_embeddings _ _ _) eqn:Hfe; simpl; [|discriminate];
       intro H; inversion H; subst; repeat split; assumption
     | destruct (py_type_eqb _ _); [discriminate|];
       destruct (_ && _); [discriminate|];
       destruct (check_indra_installation _ _); simpl; discriminate ]).
Qed.

End SearchPaths.

(** ** Witnesses on the sample store *)

Lemma sample_rows_have_ids : rows_have_ids sample_dataset.
Proof. intros p [<-|[<-|[]]]; eexists; reflexivity. Qed.

Lemma sample_ids_nodup : NoDup (ids_of sample_dataset).
Proof.
  simpl. constructor; [intros [H|[]]; discriminate|].
  constructor; [intros []|constructor].
Qed.

Lemma sample_indices_nodup : NoDup (sample_indices sample_dataset).
Proof.
  simpl. constructor; [intros [H|[]]; discriminate|].
  constructor; [intros []|constructor].
Qed.

Lemma delete_ids_and_filter_rejected_witness :
  delete_all_samples_if_specified_spec (vs_dataset (sample_store "python")) None
    = Ok (sample_dataset, false)
  /\ delete delete_all_samples_if_specified_spec delete_and_commit_spec
       (sample_store "python") (Some ["a"]) (FDict goodbye_filter) None
     = (set_dataset (sample_store "python") sample_dataset, Raise (ValueError either_msg)).
Proof.
  split; [reflexivity|].
  apply (delete_ids_and_filter_rejected delete_all_samples_if_specified_spec
           delete_and_commit_spec); reflexivity.
Defined.

Lemma delete_without_selection_raises_witness :
  ids_truthy None = false
  /\ exists e, delete delete_all_samples_if_specified_spec delete_and_commit_spec
                 (sample_store "python") None FNone None
               = (set_dataset (sample_store "python") sample_dataset, Raise e).
Proof.
  split; [reflexivity|].
  apply (delete_without_selection_raises delete_all_samples_if_specified_spec
           delete_and_commit_spec); [reflexivity | reflexivity | discriminate].
Defined.

Lemma delete_by_ids_witness :
  NoDup ["c"] /\ incl ["c"] (ids_of sample_dataset)
  /\ delete delete_all_samples_if_specified_spec delete_and_commit_spec
       (sample_store "python") (Some ["c"]) (FDict []) None
     = match delete_and_commit_spec sample_dataset
               (sample_indices
                  (List.filter (fun p => existsb (String.eqb (row_id (snd p))) ["c"])
                     sample_dataset)) with
       | Raise e => (set_dataset (sample_store "python") sample_dataset, Raise e)
       | Ok ds' => (set_dataset (sample_store "python") ds', Ok true)
       end.
Proof.
  assert (H1 : NoDup ["c"]) by (constructor; [intros []|constructor]).
  assert (H2 : incl ["c"] (ids_of sample_dataset)) by (intros s [<-|[]]; simpl; auto).
  split; [exact H1|]. split; [exact H2|].
  apply (delete_by_ids delete_all_samples_if_specified_spec delete_and_commit_spec
           (sample_store "python") ["c"] (FDict []) None sample_dataset);
    [reflexivity | exact sample_rows_have_ids | exact sample_ids_nodup
    | discriminate | exact H1 | exact H2 | reflexivity].
Defined.

Lemma delete_all_ignores_selection_witness :
  ids_truthy (Some ["a"]) = true /\ filter_truthy (FDict goodbye_filter) = true
  /\ delete delete_all_samples_if_specified_spec delete_and_commit_spec
       (sample_store "python") (Some ["a"]) (FDict goodbye_filter) (Some true)
     = (set_dataset (sample_store "python") [], Ok true).
Proof.
  split; [reflexivity|]. split; [reflexivity|].
  apply (delete_all_ignores_selection delete_all_samples_if_specified_spec
           delete_and_commit_spec). reflexivity.
Defined.

Lemma search_python_query_rejected_witness :
  query (query_args (Some "") (Some [1; 2]%Z) (FDict goodbye_filter) (Some "python")) <> None
  /\ search_spec true (sample_store "python")
       (query_args (Some "") (Some [1; 2]%Z) (FDict goodbye_filter) (Some "python"))
     = Raise (NotImplementedError
                "User-specified TQL queries are not support for exec_option=python ").
Proof.
  split; [discriminate|].
  apply (search_python_query_rejected get_embedding_spec fetch_embeddings_spec
           get_runtime_from_exec_option_spec true (sample_store "python")
           (query_args (Some "") (Some [1; 2]%Z) (FDict goodbye_filter) (Some "python"))
           [1; 2]%Z);
    [reflexivity | discriminate | right; discriminate | reflexivity].
Defined.

Lemma search_delegated_query_and_filter_rejected_witness :
  filter_truthy keep_nothing = true
  /\ search_spec false (sample_store "python")
       (query_args (Some "select * from dataset") (Some [1; 2]%Z) keep_nothing
          (Some "tensor_db"))
     = Raise (NotImplementedError
                "query and filter parameters cannot be specified simultaneously.").
Proof.
  split; [reflexivity|].
  apply (search_delegated_query_and_filter_rejected get_embedding_spec
           fetch_embeddings_spec get_runtime_from_exec_option_spec false
           (sample_store "python")
           (query_args (Some "select * from dataset") (Some [1; 2]%Z) keep_nothing
              (Some "tensor_db")));
    [right; left; reflexivity | reflexivity | reflexivity | eexists; reflexivity].
Defined.

Lemma search_delegated_ok_witness :
  search_spec true (sample_store "python")
    (search_args None (Some [1; 2]%Z) (FDict goodbye_filter) (Some "compute_engine"))
  = Ok (VectorSearch [1; 2]%Z "l2" sample_dataset 4%Z None "" "embedding" "compute_engine")
  /\ sample_dataset = vs_dataset (sample_store "python") /\ "" = ""
  /\ None = query (search_args None (Some [1; 2]%Z) (FDict goodbye_filter) (Some "compute_engine"))
  /\ get_embedding_spec (Some [1; 2]%Z) None None = Ok [1; 2]%Z
  /\ "l2" = lower "L2" /\ 4%Z = 4%Z /\ "embedding" = "embedding"
  /\ "compute_engine"
     = get_runtime_from_exec_option_spec (resolve_exec_option (Some "compute_engine") "python")
  /\ str_opt_truthy None && filter_truthy (FDict goodbye_filter) = false.
Proof.
  assert (H : search_spec true (sample_store "python")
                (search_args None (Some [1; 2]%Z) (FDict goodbye_filter) (Some "compute_engine"))
              = Ok (VectorSearch [1; 2]%Z "l2" sample_dataset 4%Z None "" "embedding"
                      "compute_engine"))
    by (vm_compute; reflexivity).
  split; [exact H|].
  exact (search_delegated_ok get_embedding_spec fetch_embeddings_spec
           get_runtime_from_exec_option_spec true _ _ _ _ _ _ _ _ _ _ H).
Defined.

Lemma search_python_ok_witness :
  search_spec true (sample_store "python")
    (search_args None (Some [1; 2]%Z) (FDict goodbye_filter) (Some "python"))
  = Ok (PythonVectorSearch [(1, sample_row "goodbye" "c")] [1; 2]%Z
          [CText "[0.5, 0.25]"] "l2" 4%Z)
  /\ resolve_exec_option (Some "python") "python" = "python"
  /\ query (search_args None (Some [1; 2]%Z) (FDict goodbye_filter) (Some "python")) = None
  /\ attribute_based_filtering_python sample_dataset (FDict goodbye_filter)
     = Ok [(1, sample_row "goodbye" "c")]
  /\ fetch_embeddings_spec "python" [(1, sample_row "goodbye" "c")] "embedding"
     = Ok [CText "[0.5, 0.25]"]
  /\ get_embedding_spec (Some [1; 2]%Z) None None = Ok [1; 2]%Z
  /\ "l2" = lower "L2" /\ 4%Z = 4%Z.
Proof.
  assert (H : search_spec true (sample_store "python")
                (search_args None (Some [1; 2]%Z) (FDict goodbye_filter) (Some "python"))
              = Ok (PythonVectorSearch [(1, sample_row "goodbye" "c")] [1; 2]%Z
                      [CText "[0.5, 0.25]"] "l2" 4%Z))
    by (vm_compute; reflexivity).
  split; [exact H|].
  exact (search_python_ok get_embedding_spec fetch_embeddings_spec
           get_runtime_from_exec_option_spec true _ _ _ _ _ _ _ H).
Defined.

(** * Edge cases of the python filter and of search *)

(** X21: the empty dict is a falsy filter, yet it is not treated as
    absent: [attribute_based_filtering_python] still filters with it and
    keeps exactly the rows of non-zero length, while [None] returns the
    view unchanged. *)
Theorem attribute_based_filtering_python_empty_dict :
  forall view : View,
    attribute_based_filtering_python view (FDict [])
    = Ok (List.filter (fun p => negb (Nat.eqb (rv_len (snd p)) 0)) view)
    /\ attribute_based_filtering_python view FNone = Ok view.
Proof.
  intros view. split; [|reflexivity]. simpl.
  rewrite view_filter_total by (intros p _; eexists; reflexivity).
  f_equal. apply filter_ext. intros [i r]. unfold kept. simpl.
  now rewrite repeat_length.
Qed.

Lemma dp_filter_loop_missing (x : RowView) (d : FilterDict) (t : string)
    (items : list (string * PyValue)) (result : PyObj) :
  In (t, items) d -> (forall c, row_value x t <> Ok c) ->
  exists e, dp_filter_loop x d result = Raise e.
Proof.
  revert result. induction d as [|[t' items'] d IH]; intros result Hin Hm;
    [destruct Hin|].
  destruct Hin as [Heq|Hin].
  - inversion Heq; subst. simpl.
    destruct (row_value x t) as [c|e] eqn:Hr; [exfalso; exact (Hm c eq_refl)|].
    simpl. eexists; reflexivity.
  - simpl. destruct (row_value x t') as [c|e]; simpl; [|eexists; reflexivity].
    destruct (truthy result).
    + destruct (all_match c items'); simpl; [|eexists; reflexivity].
      now apply IH.
    + now apply IH.
Qed.

(** X22: a tensor named by the filter but missing from the row makes
    [dp_filter_python] raise, even when an earlier tensor has already
    rejected the row: [x[tensor]] is read before [result and ...]
    short-circuits. *)
Theorem dp_filter_python_missing_tensor_raises :
  forall (x : RowView) (d : FilterDict) (t : string) (items : list (string * PyValue)),
    In (t, items) d -> (forall c, row_value x t <> Ok c) ->
    exists e, dp_filter_python x d = Raise e.
Proof.
  intros x d t items Hin Hm. exact (dp_filter_loop_missing x d t items _ Hin Hm).
Qed.

Lemma dp_filter_python_missing_tensor_raises_witness :
  dp_filter_loop (sample_row "hello world" "a")
    [("metadata", [("source", PStr "goodbye")])] (OList [PInt 1])
  = Ok (OVal (PBool false))
  /\ In ("category", []) [("metadata", [("source", PStr "goodbye")]); ("category", [])]
  /\ exists e, dp_filter_python (sample_row "hello world" "a")
                 [("metadata", [("source", PStr "goodbye")]); ("category", [])] = Raise e.
Proof.
  split; [vm_compute; reflexivity|]. split; [right; left; reflexivity|].
  apply (dp_filter_python_missing_tensor_raises _ _ "category" []).
  - right; left; reflexivity.
  - intros c H. vm_compute in H. discriminate H.
Defined.

Section SearchErrors.

Context {Emb EmbFn Embs Runtime : Type}.
Variable get_embedding : option Emb -> option string -> option EmbFn -> Result Emb.
Variable fetch_embeddings : string -> View -> string -> Result Embs.
Variable get_runtime_from_exec_option : string -> Runtime.

(** X23: an effective execution option outside "python",
    "compute_engine" and "tensor_db" (compared case-sensitively) is
    refused with [ValueError] before any helper is called, whatever the
    other arguments. *)
Theorem search_invalid_exec_option :
  forall (indra_installed : bool) (self : VectorStore EmbFn) (a : SearchArgs Emb EmbFn),
    ~ In (resolve_exec_option (exec_option a) (vs_exec_option self)) valid_exec_options ->
    @search Emb EmbFn Embs Runtime get_embedding fetch_embeddings
      get_runtime_from_exec_option indra_installed self a
    = Raise (ValueError "Invalid `exec_option` it should be either `python`, `compute_engine` or `tensor_db`.").
Proof.
  intros indra_installed self a Hnin. unfold search.
  destruct (existsb _ valid_exec_options) eqn:He; [|reflexivity].
  apply existsb_exists in He as [s [Hs Heq]]. apply String.eqb_eq in Heq.
  subst s. contradiction.
Qed.

(** X24: with a valid option and an embedding or an embedding function
    given, an error of [get_embedding] is what [search] raises: it comes
    before the query, filter and installation checks of either path. *)
Theorem search_embedding_error_first :
  forall (indra_installed : bool) (self : VectorStore EmbFn)
         (a : SearchArgs Emb EmbFn) (err : PyExc),
    In (resolve_exec_option (exec_option a) (vs_exec_option self)) valid_exec_options ->
    (embedding_function a <> None \/ embedding a <> None) ->
    get_embedding (embedding a) (prompt a) (embedding_function a) = Raise err ->
    @search Emb EmbFn Embs Runtime get_embedding fetch_embeddings
      get_runtime_from_exec_option indra_installed self a
    = Raise err.
Proof.
  intros indra_installed self a err Hin Hemb Hq. unfold search.
  destruct (existsb _ valid_exec_options) eqn:He.
  2: { exfalso. rewrite <- Bool.not_true_iff_false in He. apply He.
       apply existsb_exists. eexists; split; [exact Hin|apply String.eqb_refl]. }
  simpl.
  destruct (embedding_function a) as [ef|] eqn:Hef;
    destruct (embedding a) as [em|] eqn:Hem;
    try (destruct Hemb as [Hemb|Hemb]; contradiction Hemb; reflexivity);
    rewrite Hq; reflexivity.
Qed.

End SearchErrors.

Lemma search_invalid_exec_option_witness :
  ~ In (resolve_exec_option (Some "Python") "python") valid_exec_options
  /\ search_spec true (sample_store "python")
       (search_args None (Some [1; 2]%Z) FNone (Some "Python"))
     = Raise (ValueError "Invalid `exec_option` it should be either `python`, `compute_engine` or `tensor_db`.").
Proof.
  assert (H : ~ In (resolve_exec_option (Some "Python") "python") valid_exec_options)
    by (simpl; intros [H|[H|[H|[]]]]; discriminate H).
  split; [exact H|].
  apply (search_invalid_exec_option get_embedding_spec fetch_embeddings_spec
           get_runtime_from_exec_option_spec). exact H.
Defined.

Lemma search_embedding_error_first_witness :
  get_embedding_spec None None (Some (fun s => [Z.of_nat (String.length s)]))
  = Raise (ValueError "Either embedding array or embedding_function should be specified!")
  /\ search_spec true (sample_store "python")
       (embfn_args None (Some "select * from dataset") (Some "python"))
     = Raise (ValueError "Either embedding array or embedding_function should be specified!").
Proof.
  split; [reflexivity|].
  apply (search_embedding_error_first get_embedding_spec fetch_embeddings_spec
           get_runtime_from_exec_option_spec).
  - left; reflexivity.
  - left; discriminate.
  - reflexivity.
Defined.
